(** * InfyndChatbot: the output extractor, the HTTP handlers and the
      document loader, embedded from the Python sources

    Sources embedded here:
    - [src/chatbot/app.py] and [src/chatbot/sampleapp.py]: the [/get]
      and [/history] handlers (the two files have the same handler text);
    - [src/chatbot/test2.py] and [src/chatbot/test3.py]: the two other
      [/get] variants, the second with JSON repair;
    - [src/chatbot/src/helper.py]: [load_json_files].

    A Python [str] is a list of Unicode code points.  External services
    (the retrieval chain, the vector index, the language model, the
    document store, the JSON repair library, the clock) are fields of a
    [world] record: the handlers only see what a call returns or raises. *)

From Stdlib Require Import List NArith ZArith Bool Lia String Ascii.
From Stdlib Require Import Sorting.Sorted Sorting.Permutation.
Import ListNotations.

Set Implicit Arguments.

(* ================================================================== *)
(** ** Python strings *)
(* ================================================================== *)

Module PyStr.

(** A [str] is its sequence of code points. *)
Definition str := list N.

(** A literal: each character of the Rocq string is one code point. *)
Definition py (s : string) : str :=
  List.map N_of_ascii (list_ascii_of_string s).

Definition dquote : N := 34.      (* the double quote *)
Definition backslash : N := 92.
Definition lbrace : N := 123.     (* { *)
Definition rbrace : N := 125.     (* } *)
Definition lbracket : N := 91.    (* [ *)
Definition rbracket : N := 93.    (* ] *)
Definition colon : N := 58.
Definition comma : N := 44.

(** The literal [s] between double quotes. *)
Definition quoted (s : string) : str := dquote :: py s ++ [dquote].

Fixpoint str_eqb (a b : str) : bool :=
  match a, b with
  | [], [] => true
  | x :: a', y :: b' => (x =? y)%N && str_eqb a' b'
  | _, _ => false
  end.

(** [c in s] for a one-character [c]. *)
Definition contains (c : N) (s : str) : bool :=
  existsb (fun x => (x =? c)%N) s.

(** [s.split(c, 1)] for a one-character separator: at most one split,
    at the leftmost occurrence; the whole string when [c] is absent. *)
Fixpoint split1 (c : N) (s : str) : list str :=
  match s with
  | [] => [[]]
  | x :: s' =>
      if (x =? c)%N then [[]; s']
      else match split1 c s' with
           | p :: ps => (x :: p) :: ps
           | [] => [[x]]
           end
  end.

(** [str.isspace] on one code point (CPython's [_PyUnicode_IsWhitespace]). *)
Definition isspace (c : N) : bool :=
  ((9 <=? c) && (c <=? 13) || (28 <=? c) && (c <=? 32)
   || (c =? 133) || (c =? 160) || (c =? 5760)
   || (8192 <=? c) && (c <=? 8202)
   || (c =? 8232) || (c =? 8233) || (c =? 8239) || (c =? 8287)
   || (c =? 12288))%N.

Fixpoint lstrip (s : str) : str :=
  match s with
  | c :: s' => if isspace c then lstrip s' else s
  | [] => []
  end.

Definition rstrip (s : str) : str := rev (lstrip (rev s)).

(** [s.strip()] *)
Definition strip (s : str) : str := rstrip (lstrip s).

(** A string that [lstrip] leaves alone: empty, or led by a character
    that is not white space. *)
Definition lstripped (s : str) : Prop :=
  match s with [] => True | c :: _ => isspace c = false end.

(** [p] is a prefix of [s]: the rest of [s] after it. *)
Fixpoint strip_prefix (p s : str) : option str :=
  match p, s with
  | [], _ => Some s
  | x :: p', y :: s' => if (x =? y)%N then strip_prefix p' s' else None
  | _ :: _, [] => None
  end.

Definition startswith (s p : str) : bool :=
  match strip_prefix p s with Some _ => true | None => false end.

(** [s.endswith(p)] *)
Definition endswith (s p : str) : bool := startswith (rev s) (rev p).

(** [s.replace(pat, "")] for a non-empty [pat]: occurrences are removed
    left to right without overlap.  [skip] counts the characters of a
    matched occurrence that are still to be dropped. *)
Fixpoint remove_from (pat : str) (skip : nat) (s : str) : str :=
  match s with
  | [] => []
  | c :: s' =>
      match skip with
      | S k => remove_from pat k s'
      | O => if startswith s pat
             then remove_from pat (Nat.pred (List.length pat)) s'
             else c :: remove_from pat 0 s'
      end
  end.

Definition remove_all (pat s : str) : str := remove_from pat 0 s.

(** [pat in s] for a string [pat]. *)
Fixpoint occurs (pat s : str) : bool :=
  startswith s pat
  || match s with
     | [] => false
     | _ :: s' => occurs pat s'
     end.

(** Code-point order, as Python compares [str] (and as the store
    compares strings, UTF-8 byte order being code-point order). *)
Fixpoint str_leb (a b : str) : bool :=
  match a, b with
  | [], _ => true
  | _ :: _, [] => false
  | x :: a', y :: b' => (x <? y)%N || ((x =? y)%N && str_leb a' b')
  end.

End PyStr.
Import PyStr.

(* ================================================================== *)
(** ** JSON values and Python's [json.loads] *)
(* ================================================================== *)

Module Json.

(** The Python values [json.loads] builds.  A float keeps the text it
    was written with ([repr] for a float that was never parsed): float
    arithmetic is not part of the model.  A [dict] is its items in
    insertion order, keys unique. *)
#[warnings="-register-all"]
Inductive json : Type :=
| JNull
| JBool (b : bool)
| JInt (z : Z)
| JFloat (lexeme : str)
| JStr (s : str)
| JList (items : list json)
| JDict (items : list (str * json)).

Definition pydict := list (str * json).

(** [d.get(k)] *)
Fixpoint dict_get (d : pydict) (k : str) : option json :=
  match d with
  | [] => None
  | (k', v) :: d' => if str_eqb k' k then Some v else dict_get d' k
  end.

(** [d[k] = v]: an existing key keeps its place. *)
Fixpoint dict_set (d : pydict) (k : str) (v : json) : pydict :=
  match d with
  | [] => [(k, v)]
  | (k', v') :: d' =>
      if str_eqb k' k then (k', v) :: d' else (k', v') :: dict_set d' k v
  end.

(** [dict(pairs)] *)
Definition dict_of_pairs (pairs : list (str * json)) : pydict :=
  fold_left (fun d kv => dict_set d (fst kv) (snd kv)) pairs [].

(** Python truthiness ([if v:]).  A float is false when it is zero:
    its text has no non-zero digit before the exponent. *)
Definition is_exp_mark (c : N) : bool := ((c =? 101) || (c =? 69))%N.

Fixpoint mantissa (s : str) : str :=
  match s with
  | [] => []
  | c :: s' => if is_exp_mark c then [] else c :: mantissa s'
  end.

Definition float_nonzero (lexeme : str) : bool :=
  existsb (fun c => ((49 <=? c) && (c <=? 57))%N) (mantissa lexeme)
  || negb (existsb (fun c => ((48 <=? c) && (c <=? 57))%N) lexeme).

Definition truthy (v : json) : bool :=
  match v with
  | JNull => false
  | JBool b => b
  | JInt z => negb (z =? 0)%Z
  | JFloat x => float_nonzero x
  | JStr s => negb (str_eqb s [])
  | JList l => match l with [] => false | _ => true end
  | JDict d => match d with [] => false | _ => true end
  end.

(** *** The scanner *)

(** The interpreter's limits on [json.loads]: the longest digit string
    [int] converts ([sys.get_int_max_str_digits()], 4300 unless
    configured, 0 for no limit), and the container levels the scanner
    can still enter beyond the first before the recursion limit is
    reached (a handler that runs has room for one level). *)
Record limits : Type := {
  max_str_digits : nat;
  nesting_room : nat
}.

(** Why the scanner gives up on a text that is not malformed. *)
Inductive refusal : Type :=
| TooManyDigits      (* [int] raises [ValueError] *)
| TooDeep.           (* the scanner raises [RecursionError] *)

(** Result of a scanning step: a value and the unread rest, a rejected
    text ([JSONDecodeError]), a refusal, or a budget that ran out. *)
Inductive scan (A : Type) : Type :=
| Scanned (a : A) (rest : str)
| Rejected
| Refused (why : refusal)
| OutOfFuel.
Arguments Rejected {A}.
Arguments Refused {A}.
Arguments OutOfFuel {A}.

(** [WHITESPACE]: space, tab, line feed, carriage return. *)
Definition is_ws (c : N) : bool :=
  ((c =? 32) || (c =? 9) || (c =? 10) || (c =? 13))%N.

Fixpoint skip_ws (s : str) : str :=
  match s with
  | c :: s' => if is_ws c then skip_ws s' else s
  | [] => []
  end.

Definition is_digit (c : N) : bool := ((48 <=? c) && (c <=? 57))%N.

Definition hex_digit (c : N) : option N :=
  if is_digit c then Some (c - 48)%N
  else if ((97 <=? c) && (c <=? 102))%N then Some (c - 87)%N
  else if ((65 <=? c) && (c <=? 70))%N then Some (c - 55)%N
  else None.

Definition hex4 (a b c d : N) : option N :=
  match hex_digit a, hex_digit b, hex_digit c, hex_digit d with
  | Some x, Some y, Some z, Some w =>
      Some (x * 4096 + y * 256 + z * 16 + w)%N
  | _, _, _, _ => None
  end.

(** The one-character escapes after a backslash. *)
Definition unescape (c : N) : option N :=
  if (c =? 34)%N then Some 34%N
  else if (c =? 92)%N then Some 92%N
  else if (c =? 47)%N then Some 47%N
  else if (c =? 98)%N then Some 8%N
  else if (c =? 102)%N then Some 12%N
  else if (c =? 110)%N then Some 10%N
  else if (c =? 114)%N then Some 13%N
  else if (c =? 116)%N then Some 9%N
  else None.

Definition is_high_surrogate (u : N) : bool :=
  ((55296 <=? u) && (u <=? 56319))%N.
Definition is_low_surrogate (u : N) : bool :=
  ((56320 <=? u) && (u <=? 57343))%N.

(** Characters decoded so far, newest first, and a high surrogate read
    from a [\u] escape that waits for a low one right behind it. *)
Definition flush (pending : option N) (acc : str) : str :=
  match pending with Some hi => hi :: acc | None => acc end.

(** [scanstring] in strict mode, entered after the opening quote:
    the decoded string and what follows the closing quote. *)
Fixpoint scanstring_from (pending : option N) (acc : str) (s : str)
  : option (str * str) :=
  match s with
  | [] => None
  | c :: s' =>
      if (c =? dquote)%N then Some (rev (flush pending acc), s')
      else if (c =? backslash)%N then
        match s' with
        | [] => None
        | e :: s'' =>
            if (e =? 117)%N then
              match s'' with
              | h1 :: h2 :: h3 :: h4 :: t =>
                  match hex4 h1 h2 h3 h4 with
                  | None => None
                  | Some uni =>
                      match pending with
                      | Some hi =>
                          if is_low_surrogate uni then
                            scanstring_from None
                              ((65536 + (hi - 55296) * 1024
                                + (uni - 56320))%N :: acc) t
                          else if is_high_surrogate uni then
                            scanstring_from (Some uni) (hi :: acc) t
                          else scanstring_from None (uni :: hi :: acc) t
                      | None =>
                          if is_high_surrogate uni then
                            scanstring_from (Some uni) acc t
                          else scanstring_from None (uni :: acc) t
                      end
                  end
              | _ => None
              end
            else
              match unescape e with
              | Some ch => scanstring_from None (ch :: flush pending acc) s''
              | None => None
              end
        end
      else if (c <? 32)%N then None
      else scanstring_from None (c :: flush pending acc) s'
  end.

Definition scanstring (s : str) : option (str * str) :=
  scanstring_from None [] s.

(** Leading characters that satisfy [p], and the rest. *)
Fixpoint span (p : N -> bool) (s : str) : str * str :=
  match s with
  | c :: s' =>
      if p c then let (a, b) := span p s' in (c :: a, b) else ([], s)
  | [] => ([], [])
  end.

Definition digits_value (ds : str) : Z :=
  fold_left (fun acc d => (acc * 10 + Z.of_N (d - 48))%Z) ds 0%Z.

(** The integer part of [NUMBER_RE]: [0] or a digit string that does
    not start with [0]. *)
Definition int_part (s : str) : option (str * str) :=
  match s with
  | c :: s' =>
      if (c =? 48)%N then Some ([c], s')
      else if is_digit c then let (ds, r) := span is_digit s in Some (ds, r)
      else None
  | [] => None
  end.

(** The optional groups of [NUMBER_RE]: a dot and at least one digit;
    [e] or [E], an optional sign and at least one digit.  A group that
    does not match is left unread. *)
Definition frac_part (s : str) : str * str :=
  match s with
  | c :: s' =>
      if (c =? 46)%N then
        match span is_digit s' with
        | ([], _) => ([], s)
        | (ds, r) => (c :: ds, r)
        end
      else ([], s)
  | [] => ([], s)
  end.

Definition is_sign (c : N) : bool := ((c =? 43) || (c =? 45))%N.

Definition exp_part (s : str) : str * str :=
  match s with
  | c :: s' =>
      if is_exp_mark c then
        match s' with
        | g :: s'' =>
            if is_sign g then
              match span is_digit s'' with
              | ([], _) => ([], s)
              | (ds, r) => (c :: g :: ds, r)
              end
            else
              match span is_digit s' with
              | ([], _) => ([], s)
              | (ds, r) => (c :: ds, r)
              end
        | [] => ([], s)
        end
      else ([], s)
  | [] => ([], s)
  end.

(** What [NUMBER_RE] matches: an integer (sign and digits) or the text
    of a float. *)
Inductive number : Type :=
| IntegerText (negative : bool) (digits : str)
| FloatText (lexeme : str).

(** [match_number] *)
Definition match_number (s : str) : option (number * str) :=
  let (neg, s0) :=
    match s with
    | c :: s' => if (c =? 45)%N then (true, s') else (false, s)
    | [] => (false, s)
    end in
  match int_part s0 with
  | None => None
  | Some (ds, r) =>
      let (fr, r1) := frac_part r in
      let (ex, r2) := exp_part r1 in
      match fr, ex with
      | [], [] => Some (IntegerText neg ds, r2)
      | _, _ =>
          Some (FloatText ((if neg then [45%N] else []) ++ ds ++ fr ++ ex), r2)
      end
  end.

(** [int(text)] refuses a digit string longer than the limit. *)
Definition too_many_digits (lim : limits) (ds : str) : bool :=
  match max_str_digits lim with
  | O => false
  | S _ => max_str_digits lim <? List.length ds
  end.

Definition keyword (w : string) (v : json) (s : str) : option (json * str) :=
  match strip_prefix (py w) s with
  | Some r => Some (v, r)
  | None => None
  end.

Definition or_else {A} (a b : option A) : option A :=
  match a with Some _ => a | None => b end.

Definition of_option {A} (o : option (A * str)) : scan A :=
  match o with Some (a, r) => Scanned a r | None => Rejected end.

(** The branches of [scan_once] that read no nested value, in its
    order: [null], [true], [false], a number (converted at once, an
    integer by [int], anything else by [float]), [NaN], [Infinity],
    [-Infinity]. *)
Definition scan_atom (lim : limits) (s : str) : scan json :=
  match or_else (keyword "null" JNull s)
          (or_else (keyword "true" (JBool true) s)
                   (keyword "false" (JBool false) s)) with
  | Some (v, r) => Scanned v r
  | None =>
      match match_number s with
      | Some (IntegerText neg ds, r) =>
          if too_many_digits lim ds then Refused TooManyDigits
          else Scanned (JInt (if neg then (- digits_value ds)%Z
                              else digits_value ds)) r
      | Some (FloatText lexeme, r) => Scanned (JFloat lexeme) r
      | None =>
          of_option
            (or_else (keyword "NaN" (JFloat (py "NaN")) s)
            (or_else (keyword "Infinity" (JFloat (py "Infinity")) s)
                     (keyword "-Infinity" (JFloat (py "-Infinity")) s)))
      end
  end.

(** [scan_once], [JSONObject] and [JSONArray].  [JSONObject] and
    [JSONArray] are entered after the opening bracket; their loops are
    [object_loop], entered after the opening quote of a key, and
    [array_loop], entered at a value.  Every call spends one unit of
    [fuel]; entering a container spends one level of [depth], and is
    refused when none is left. *)
Fixpoint scan_once (lim : limits) (fuel depth : nat) (s : str)
    {struct fuel} : scan json :=
  match fuel with
  | O => OutOfFuel
  | S n =>
      match s with
      | [] => Rejected
      | c :: s' =>
          if (c =? dquote)%N then
            match scanstring s' with
            | Some (k, r) => Scanned (JStr k) r
            | None => Rejected
            end
          else if (c =? lbrace)%N then
            match depth with
            | O => Refused TooDeep
            | S d => JSONObject lim n d s'
            end
          else if (c =? lbracket)%N then
            match depth with
            | O => Refused TooDeep
            | S d => JSONArray lim n d s'
            end
          else scan_atom lim s
      end
  end
with JSONObject (lim : limits) (fuel depth : nat) (s : str)
       {struct fuel} : scan json :=
  match fuel with
  | O => OutOfFuel
  | S n =>
      match skip_ws s with
      | c :: s' =>
          if (c =? rbrace)%N then Scanned (JDict []) s'
          else if (c =? dquote)%N then object_loop lim n depth [] s'
          else Rejected
      | [] => Rejected
      end
  end
with object_loop (lim : limits) (fuel depth : nat)
       (pairs : list (str * json)) (s : str) {struct fuel} : scan json :=
  match fuel with
  | O => OutOfFuel
  | S n =>
      match scanstring s with
      | None => Rejected
      | Some (key, r) =>
          match skip_ws r with
          | c :: r1 =>
              if (c =? colon)%N then
                match scan_once lim n depth (skip_ws r1) with
                | Scanned value r2 =>
                    let pairs' := pairs ++ [(key, value)] in
                    match skip_ws r2 with
                    | d :: r3 =>
                        if (d =? rbrace)%N
                        then Scanned (JDict (dict_of_pairs pairs')) r3
                        else if (d =? comma)%N then
                          match skip_ws r3 with
                          | q :: r4 =>
                              if (q =? dquote)%N
                              then object_loop lim n depth pairs' r4
                              else Rejected
                          | [] => Rejected
                          end
                        else Rejected
                    | [] => Rejected
                    end
                | Rejected => Rejected
                | Refused why => Refused why
                | OutOfFuel => OutOfFuel
                end
              else Rejected
          | [] => Rejected
          end
      end
  end
with JSONArray (lim : limits) (fuel depth : nat) (s : str)
       {struct fuel} : scan json :=
  match fuel with
  | O => OutOfFuel
  | S n =>
      match skip_ws s with
      | c :: s' =>
          if (c =? rbracket)%N then Scanned (JList []) s'
          else array_loop lim n depth [] (c :: s')
      | [] => Rejected
      end
  end
with array_loop (lim : limits) (fuel depth : nat) (values : list json)
       (s : str) {struct fuel} : scan json :=
  match fuel with
  | O => OutOfFuel
  | S n =>
      match scan_once lim n depth s with
      | Scanned value r =>
          let values' := values ++ [value] in
          match skip_ws r with
          | d :: r1 =>
              if (d =? rbracket)%N then Scanned (JList values') r1
              else if (d =? comma)%N
              then array_loop lim n depth values' (skip_ws r1)
              else Rejected
          | [] => Rejected
          end
      | Rejected => Rejected
      | Refused why => Refused why
      | OutOfFuel => OutOfFuel
      end
  end.

(** What [json.loads] does with a text. *)
Inductive loaded : Type :=
| Loaded (v : json)
| DecodeError            (* raises [json.JSONDecodeError] *)
| DigitsError            (* raises [ValueError]: an integer too long *)
| DepthError             (* raises [RecursionError] *)
| Exhausted.             (* the scanner's budget ran out *)

(** [decode]: leading whitespace, one value, trailing whitespace, end. *)
Definition decode (lim : limits) (fuel : nat) (s : str) : loaded :=
  match scan_once lim fuel (S (nesting_room lim)) (skip_ws s) with
  | Scanned v r =>
      match skip_ws r with
      | [] => Loaded v
      | _ :: _ => DecodeError
      end
  | Rejected => DecodeError
  | Refused TooManyDigits => DigitsError
  | Refused TooDeep => DepthError
  | OutOfFuel => Exhausted
  end.

(** [json.loads(s)] for a [str]: a leading byte-order mark is refused.
    The budget is one more than three times the length of the text. *)
Definition json_loads (lim : limits) (s : str) : loaded :=
  match s with
  | 65279%N :: _ => DecodeError
  | _ => decode lim (S (3 * List.length s)) s
  end.

End Json.
Import Json.

(* ================================================================== *)
(** ** Exceptions, external calls and the handler monad *)
(* ================================================================== *)

Module Py.

Inductive exn : Type :=
| JSONDecodeError
| IntDigitsError               (* the [ValueError] of [int] for a digit
                                  string over the limit: not a
                                  [JSONDecodeError] *)
| RecursionError
| AttributeError               (* [.get] on a value that is not a dict *)
| IndexError
| TypeError
| ValueError (msg : str)
| Failure (msg : str)          (* raised inside an external service *)
| BudgetError.                 (* the scanner's budget ran out: never
                                  raised, see [json_loads_total] *)

(** A call that leaves the process. *)
Inductive event : Type :=
| RagChainInvoke (input : str)            (* retrieval, then generation *)
| InsertOne (document : pydict)           (* history write *)
| FindRecent                              (* history read *)
| IndexQuery (query : str)                (* embedding and retrieval *)
| LlmInvoke (query : str) (data : json).  (* generation *)

(** A computation: the external calls it made, in order, and either the
    exception it raised or its value. *)
Definition M (A : Type) : Type := list event * (exn + A).

Definition ret {A} (a : A) : M A := ([], inr a).
Definition raise {A} (e : exn) : M A := ([], inl e).

Definition bind {A B} (m : M A) (f : A -> M B) : M B :=
  match m with
  | (t, inl e) => (t, inl e)
  | (t, inr a) => let (t', r) := f a in (t ++ t', r)
  end.

(** [try: m  except <those that catches accepts> as e: handler e] *)
Definition try_except {A} (m : M A) (catches : exn -> bool)
    (handler : exn -> M A) : M A :=
  match m with
  | (t, inl e) =>
      if catches e then let (t', r) := handler e in (t ++ t', r)
      else (t, inl e)
  | (t, inr a) => (t, inr a)
  end.

(** An external call: it is recorded, then returns or raises. *)
Definition call {A} (ev : event) (outcome : exn + A) : M A :=
  ([ev], outcome).


(** A library call inside the process. *)
Definition lift {A} (outcome : exn + A) : M A := ([], outcome).

Declare Scope py_scope.
Delimit Scope py_scope with py.
Notation "x <- m ;; k" := (bind m (fun x => k))
  (at level 61, m at next level, right associativity) : py_scope.
Notation "' p <- m ;; k" := (bind m (fun x => let p := x in k))
  (at level 61, p pattern, m at next level, right associativity) : py_scope.

(** [except json.JSONDecodeError] and [except Exception] / bare [except]. *)
Definition is_JSONDecodeError (e : exn) : bool :=
  match e with JSONDecodeError => true | _ => false end.
Definition any_exception (e : exn) : bool := true.

(** [json.loads] as the handlers call it. *)
Definition loads (lim : limits) (s : str) : M json :=
  match json_loads lim s with
  | Loaded v => ret v
  | DecodeError => raise JSONDecodeError
  | DigitsError => raise IntDigitsError
  | DepthError => raise RecursionError
  | Exhausted => raise BudgetError
  end.

(** [obj.get(key, default)]: a dict method. *)
Definition get (obj : json) (key : str) (default : json) : M json :=
  match obj with
  | JDict d =>
      ret (match dict_get d key with Some v => v | None => default end)
  | _ => raise AttributeError
  end.

(** [parts[i]] *)
Definition getitem (parts : list str) (i : nat) : M str :=
  match nth_error parts i with
  | Some p => ret p
  | None => raise IndexError
  end.

(** An HTTP response: [jsonify(body), status], or the framework's
    error page when the handler let an exception escape. *)
Inductive payload : Type :=
| JsonBody (body : json)
| ErrorPage.

Record response : Type := { status : nat; content : payload }.

Definition jsonify (body : json) : response :=
  {| status := 200; content := JsonBody body |}.

Definition with_status (r : response) (code : nat) : response :=
  {| status := code; content := content r |}.

(** The framework runs a handler. *)
Definition serve (m : M response) : list event * response :=
  match m with
  | (t, inr r) => (t, r)
  | (t, inl _) => (t, {| status := 500; content := ErrorPage |})
  end.

(** [request.form]: the submitted fields. *)
Definition form := list (str * str).

Fixpoint form_get (f : form) (k : str) : option str :=
  match f with
  | [] => None
  | (k', v) :: f' => if str_eqb k' k then Some v else form_get f' k
  end.

(** The entry [k] of a JSON object, to read a response body. *)
Definition field (j : json) (k : string) : option json :=
  match j with
  | JDict d => dict_get d (py k)
  | _ => None
  end.

End Py.
Import Py.
Local Open Scope py_scope.

(* ================================================================== *)
(** ** The external services *)
(* ================================================================== *)

Module Store.

(** A stored chat entry: the four fields [chat] writes and the
    identifier the store gives it. *)
Record ChatEntry : Type := {
  entry_id : str;
  user_input : str;
  answer : str;
  filters : json;
  timestamp : str
}.

(** A field of a document read back from the store: the identifier is
    an [ObjectId], which is not a JSON value. *)
Inductive bson : Type :=
| ObjectId (hex : str)
| Value (v : json).

Definition document := list (str * bson).

Definition stored (e : ChatEntry) : document :=
  [ (py "_id", ObjectId (entry_id e));
    (py "user_input", Value (JStr (user_input e)));
    (py "answer", Value (JStr (answer e)));
    (py "filters", Value (filters e));
    (py "timestamp", Value (JStr (timestamp e))) ].

(** The handler's dict, read as a document. *)
Definition plain (d : pydict) : document :=
  List.map (fun kv => (fst kv, Value (snd kv))) d.

(** [d[k] = v] on a document: an existing key keeps its place. *)
Fixpoint doc_set (d : document) (k : str) (v : bson) : document :=
  match d with
  | [] => [(k, v)]
  | (k', v') :: d' =>
      if str_eqb k' k then (k', v) :: d' else (k', v') :: doc_set d' k v
  end.

(** A write that raised: the exception, and the identifier the driver
    had already put in the document when it got that far.  The
    driver's [insert_one] assigns [document["_id"] = ObjectId()] in
    place, on the caller's dict, before it talks to the server. *)
Record failed_write : Type := {
  write_error : exn;
  assigned_id : option str
}.

(** The handler's dict once [insert_one] has returned or raised. *)
Definition after_insert (d : pydict) (outcome : failed_write + str)
  : document :=
  match outcome with
  | inr inserted_id => doc_set (plain d) (py "_id") (ObjectId inserted_id)
  | inl failure =>
      match assigned_id failure with
      | Some oid => doc_set (plain d) (py "_id") (ObjectId oid)
      | None => plain d
      end
  end.

(** What the call itself gives: the identifier or the exception. *)
Definition write_result (outcome : failed_write + str) : exn + str :=
  match outcome with
  | inr inserted_id => inr inserted_id
  | inl failure => inl (write_error failure)
  end.

(** The projection [{key: 0}]. *)
Definition exclude (key : str) (d : document) : document :=
  filter (fun kv => negb (str_eqb (fst kv) key)) d.

(** [sort("timestamp", -1)]: descending by timestamp; entries with the
    same timestamp keep the order they are stored in. *)
Fixpoint insert_desc (x : ChatEntry) (l : list ChatEntry) : list ChatEntry :=
  match l with
  | [] => [x]
  | y :: l' =>
      if str_leb (timestamp y) (timestamp x) then x :: l
      else y :: insert_desc x l'
  end.

Fixpoint sort_desc (l : list ChatEntry) : list ChatEntry :=
  match l with
  | [] => []
  | x :: l' => insert_desc x (sort_desc l')
  end.

(** [a] may come before [b] in a newest-first listing. *)
Definition not_older (a b : ChatEntry) : Prop :=
  str_leb (timestamp b) (timestamp a) = true.

(** [find({}, {"_id": 0}).sort("timestamp", -1).limit(n)], read out
    with [list(...)]. *)
Definition find_recent (n : nat) (entries : list ChatEntry) : list document :=
  List.map (fun e => exclude (py "_id") (stored e))
           (firstn n (sort_desc entries)).

End Store.

Module Pinecone.

(** The two metadata keys the handlers read.  [source] is the file
    name the record was indexed under. *)
Record Metadata : Type := {
  source : option str;
  text : option json
}.

Record Match : Type := { metadata : option Metadata }.

End Pinecone.

Module Env.

(** What the services answer.  A call returns [inr] its value or
    raises [inl] an exception.
    - [rag_chain_invoke input]: the ["answer"] entry of the chain's
      response, when it has one;
    - [strftime_now]: [datetime.now().strftime("%Y-%m-%d %H:%M:%S")];
    - [insert_one document]: [str(result.inserted_id)] when the write
      returns, and when it raises the exception together with the
      identifier the driver has left in the handler's dict, if any;
    - [json_limits]: the interpreter's limits on [json.loads];
    - [collection]: the entries a read of the history collection sees;
    - [index_query query]: [index.query(vector=embedder.encode(query)
      .tolist(), top_k=20, include_metadata=True).matches];
    - [llm_invoke query data]: [llm.invoke(prompt)], the prompt being
      built from the query and the grouped data;
    - [repair_json text]: the repair library;
    - [exn_text e]: [str(e)] for an exception the interpreter words. *)
Record world : Type := {
  rag_chain_invoke : str -> exn + option str;
  strftime_now : str;
  insert_one : pydict -> Store.failed_write + str;
  json_limits : limits;
  collection : exn + list Store.ChatEntry;
  index_query : str -> exn + list Pinecone.Match;
  llm_invoke : str -> json -> exn + str;
  repair_json : str -> exn + str;
  exn_text : exn -> str
}.

(** [str(e)] *)
Definition str_exn (w : world) (e : exn) : str :=
  match e with
  | ValueError msg => msg
  | Failure msg => msg
  | _ => exn_text w e
  end.

End Env.
Import Env.

(* ================================================================== *)
(** ** [app.py]: the [/get] and [/history] handlers *)
(* ================================================================== *)

Module App.

(** [chat], lines 83-89: the split at the first brace. *)
Definition split_answer (raw_answer : str) : M (str * str) :=
  if contains lbrace raw_answer then
    let parts := split1 lbrace raw_answer in
    p0 <- getitem parts 0 ;;
    let human_part := strip p0 in
    p1 <- getitem parts 1 ;;
    let json_part := lbrace :: p1 in
    ret (human_part, json_part)
  else
    let human_part := raw_answer in
    let json_part := py "{}" in
    ret (human_part, json_part).

(** [chat], lines 91-95: the parse of the candidate blob. *)
Definition parse_filters (w : world) (json_part : str) : M json :=
  try_except
    (parsed_json <- loads (json_limits w) json_part ;;
     get parsed_json (py "filters") (JDict []))
    is_JSONDecodeError
    (fun _ => ret (JDict [])).

(** Lines 83-95 together: the output extraction. *)
Definition extract (w : world) (raw_answer : str) : M (str * json) :=
  ' (human_part, json_part) <- split_answer raw_answer ;;
  filters <- parse_filters w json_part ;;
  ret (human_part, filters).

(** Serialisation of a dict that may hold an [ObjectId], which is not
    serialisable: [jsonify] raises [TypeError] on it. *)
Fixpoint document_json (d : Store.document) : M pydict :=
  match d with
  | [] => ret []
  | (k, Store.Value v) :: d' =>
      rest <- document_json d' ;; ret ((k, v) :: rest)
  | (_, Store.ObjectId _) :: _ => raise TypeError
  end.

(** [chat], lines 70-114. *)
Definition chat (w : world) (request_form : form) : M response :=
  let msg := form_get request_form (py "msg") in
  match msg with
  | None | Some [] =>
      ret (with_status
             (jsonify (JDict [(py "error", JStr (py "No message provided"))]))
             400)
  | Some msg =>
      response <- call (RagChainInvoke msg) (rag_chain_invoke w msg) ;;
      let raw_answer := match response with Some a => a | None => [] end in
      ' (human_part, filters) <- extract w raw_answer ;;
      let final_output :=
        [ (py "user_input", JStr msg);
          (py "answer", JStr human_part);
          (py "filters", filters);
          (py "timestamp", JStr (strftime_now w)) ] in
      (* [insert_one] works on the handler's dict, which is read again
         after the [try] whether the call returned or raised *)
      let outcome := insert_one w final_output in
      let touched := Store.after_insert final_output outcome in
      final_output' <-
        try_except
          (inserted_id <- call (InsertOne final_output)
                               (Store.write_result outcome) ;;
           ret (Store.doc_set touched (py "_id")
                  (Store.Value (JStr inserted_id))))
          any_exception
          (fun _ => ret touched) ;;
      body <- document_json final_output' ;;
      ret (jsonify (JDict body))
  end.

(** [final_output] as lines 98-103 build it. *)
Definition chat_entry (w : world) (msg human : str) (filters : json) : pydict :=
  [ (py "user_input", JStr msg);
    (py "answer", JStr human);
    (py "filters", filters);
    (py "timestamp", JStr (strftime_now w)) ].

(** What the handler answers once the entry is built: the entry with
    the identifier when the write returned, the entry alone when the
    write raised before the driver touched the dict, and the
    framework's error page when the write raised after the driver had
    put its [ObjectId] in the dict, which [jsonify] cannot serialise. *)
Definition chat_answer (entry : pydict) (outcome : Store.failed_write + str)
  : response :=
  match outcome with
  | inr inserted_id => jsonify (JDict (entry ++ [(py "_id", JStr inserted_id)]))
  | inl failure =>
      match Store.assigned_id failure with
      | None => jsonify (JDict entry)
      | Some _ => {| status := 500; content := ErrorPage |}
      end
  end.

(** Serialisation of the documents read from the store. *)
Fixpoint documents_json (ds : list Store.document) : M (list json) :=
  match ds with
  | [] => ret []
  | d :: ds' =>
      j <- document_json d ;;
      rest <- documents_json ds' ;;
      ret (JDict j :: rest)
  end.

(** A stored entry as [/history] lists it. *)
Definition shown (e : Store.ChatEntry) : json :=
  JDict [ (py "user_input", JStr (Store.user_input e));
          (py "answer", JStr (Store.answer e));
          (py "filters", Store.filters e);
          (py "timestamp", JStr (Store.timestamp e)) ].

(** [history], lines 117-124. *)
Definition history (w : world) : M response :=
  try_except
    (entries <- call FindRecent (collection w) ;;
     let chats := Store.find_recent 10 entries in
     body <- documents_json chats ;;
     ret (jsonify (JList body)))
    any_exception
    (fun e =>
       ret (with_status
              (jsonify (JDict [(py "error", JStr (str_exn w e))]))
              500)).

End App.

(** [sampleapp.py]: lines 78-122 and 125-132 are the statements of
    [app.py]'s [chat] and [history]. *)
Module SampleApp.
Definition chat := App.chat.
Definition history := App.history.
End SampleApp.

(* ================================================================== *)
(** ** [test2.py] and [test3.py]: the direct-retrieval variants *)
(* ================================================================== *)

(** The grouping loop, [test2.py] lines 39-50 and [test3.py] lines
    67-78 (the same statements). *)
Module Grouping.
Import Pinecone.

Definition groups := list (str * list json).

(** [grouped[source].append(x)] on a [defaultdict(list)]. *)
Fixpoint append_to (grouped : groups) (source : str) (x : json) : groups :=
  match grouped with
  | [] => [(source, [x])]
  | (k, l) :: g' =>
      if str_eqb k source then (k, l ++ [x]) :: g'
      else (k, l) :: append_to g' source x
  end.

(** [json.loads(text)] for a metadata value: only a [str] is accepted. *)
Definition loads_value (lim : limits) (text : json) : M json :=
  match text with
  | JStr s => loads lim s
  | _ => raise TypeError
  end.

Definition group_match (lim : limits) (grouped : groups) (m : Match)
  : M groups :=
  let meta :=
    match metadata m with
    | Some md => md
    | None => {| source := None; text := None |}
    end in
  let source :=
    match Pinecone.source meta with
    | Some s => s
    | None => py "unknown_source"
    end in
  let text :=
    match Pinecone.text meta with Some t => t | None => JStr [] end in
  if truthy text then
    try_except
      (parsed <- loads_value lim text ;;
       ret (append_to grouped source parsed))
      any_exception
      (fun _ => ret (append_to grouped source (JDict [(py "text", text)])))
  else ret grouped.

Fixpoint group_matches (lim : limits) (grouped : groups)
    (matches : list Match) : M groups :=
  match matches with
  | [] => ret grouped
  | m :: rest =>
      grouped' <- group_match lim grouped m ;;
      group_matches lim grouped' rest
  end.

(** [dict(grouped)] *)
Definition as_dict (grouped : groups) : json :=
  JDict (List.map (fun kl => (fst kl, JList (snd kl))) grouped).

(** *** What one match contributes *)

(** [meta.get("source", "unknown_source")] and [meta.get("text", "")]
    for [meta = match.metadata or {}]. *)
Definition source_of (m : Match) : str :=
  match metadata m with
  | Some md =>
      match Pinecone.source md with
      | Some s => s
      | None => py "unknown_source"
      end
  | None => py "unknown_source"
  end.

Definition text_of (m : Match) : json :=
  match metadata m with
  | Some md =>
      match Pinecone.text md with Some t => t | None => JStr [] end
  | None => JStr []
  end.

(** The item filed for a text: its parsed form when it is a string
    that loads as JSON, the text wrapped under ["text"] otherwise. *)
Definition item_of (lim : limits) (text : json) : json :=
  match text with
  | JStr s =>
      match json_loads lim s with
      | Loaded v => v
      | _ => JDict [(py "text", text)]
      end
  | _ => JDict [(py "text", text)]
  end.

(** One turn of the loop, as a function of the groups. *)
Definition file_match (lim : limits) (grouped : groups) (m : Match)
  : groups :=
  if truthy (text_of m)
  then append_to grouped (source_of m) (item_of lim (text_of m))
  else grouped.

(** The number of items filed, over all sources. *)
Definition items_count (grouped : groups) : nat :=
  list_sum (List.map (fun kl => List.length (snd kl)) grouped).

End Grouping.

Module Test2.

(** [chat], lines 26-70.  The prompt is an f-string around the query
    and [json.dumps(structured_output)]; the language model receives
    the two. *)
Definition chat (w : world) (request_form : form) : M response :=
  let query :=
    strip (match form_get request_form (py "msg") with
           | Some m => m
           | None => []
           end) in
  match query with
  | [] =>
      ret (jsonify (JDict [ (py "summary", JStr (py "Please enter a query."));
                            (py "structured_output", JDict []) ]))
  | _ :: _ =>
      matches <- call (IndexQuery query) (index_query w query) ;;
      grouped <- Grouping.group_matches (json_limits w) [] matches ;;
      let structured_output := Grouping.as_dict grouped in
      summary <-
        try_except
          (raw <- call (LlmInvoke query structured_output)
                       (llm_invoke w query structured_output) ;;
           ret (strip raw))
          any_exception
          (fun e => ret (py "Error generating summary: " ++ str_exn w e)) ;;
      ret (jsonify (JDict [ (py "summary", JStr summary);
                            (py "structured_output", structured_output) ]))
  end.

End Test2.

Module Test3.

(** [validate_and_repair_json], lines 26-35. *)
Definition validate_and_repair_json (w : world) (llm_output : str) : M json :=
  try_except
    (loads (json_limits w) llm_output)
    is_JSONDecodeError
    (fun _ =>
       try_except
         (repaired <- lift (repair_json w llm_output) ;;
          loads (json_limits w) repaired)
         any_exception
         (fun e =>
            raise (ValueError
                     (py "Failed to repair/parse JSON: " ++ str_exn w e)))).


Definition empty_reply (summary : str) : response :=
  jsonify (JDict [ (py "summary", JStr summary);
                   (py "validated_output", JDict []);
                   (py "elasticsearch_query", JDict []) ]).

(** Lines 120 and 124: the reply without code fences. *)
Definition cleaned (raw : str) : str :=
  strip (remove_all (py "```") (remove_all (py "```json") (strip raw))).

(** [chat], lines 118-137 (step 4): the model's reply, cleaned of code
    fences, validated and read.  The prompt of step 3 is an f-string
    around the query and [json.dumps(structured_output)]; the language
    model receives the two. *)
Definition model_reply (w : world) (query : str) (structured_output : json)
  : M (json * json * json) :=
  try_except
    (raw <- call (LlmInvoke query structured_output)
                 (llm_invoke w query structured_output) ;;
     let llm_output := strip raw in
     let llm_output :=
       strip (remove_all (py "```")
                (remove_all (py "```json") llm_output)) in
     parsed <- validate_and_repair_json w llm_output ;;
     summary <-
       get parsed (py "summary") (JStr (py "No summary generated.")) ;;
     validated_output <-
       get parsed (py "validated_output") structured_output ;;
     elasticsearch_query <-
       get parsed (py "elasticsearch_query") (JDict []) ;;
     ret (summary, validated_output, elasticsearch_query))
    any_exception
    (fun e =>
       let summary :=
         JStr (py "Error validating or generating query: " ++ str_exn w e) in
       let validated_output := structured_output in
       let elasticsearch_query := JDict [] in
       ret (summary, validated_output, elasticsearch_query)).

(** [chat], lines 42-144. *)
Definition chat (w : world) (request_form : form) : M response :=
  let query :=
    strip (match form_get request_form (py "msg") with
           | Some m => m
           | None => []
           end) in
  match query with
  | [] => ret (empty_reply (py "Please enter a query."))
  | _ :: _ =>
      (* Step 1 *)
      result <-
        try_except
          (matches <- call (IndexQuery query) (index_query w query) ;;
           ret (inr matches))
          any_exception
          (fun e => ret (inl e)) ;;
      match result with
      | inl e =>
          ret (empty_reply (py "Error connecting to database: " ++ str_exn w e))
      | inr matches =>
          (* Step 2 *)
          grouped <- Grouping.group_matches (json_limits w) [] matches ;;
          let structured_output := Grouping.as_dict grouped in
          (* Steps 3 and 4 *)
          ' (summary, validated_output, elasticsearch_query) <-
            model_reply w query structured_output ;;
          (* Step 5 *)
          ret (jsonify (JDict [ (py "summary", summary);
                                (py "validated_output", structured_output);
                                (py "elasticsearch_query", elasticsearch_query) ]))
      end
  end.

End Test3.

(* ================================================================== *)
(** ** [src/helper.py]: the document loader *)
(* ================================================================== *)

Module Helper.

(** A LangChain [Document]. *)
Record Document : Type := {
  page_content : str;
  metadata : pydict
}.

(** An entry of the data folder: its name and, when it can be opened
    and read as UTF-8 text, its content. *)
Record file : Type := {
  file_name : str;
  file_text : option str
}.

(** [with open(file_path, "r", encoding="utf-8") as f: json.load(f)] *)
Definition json_load (lim : limits) (f : file) : M json :=
  match file_text f with
  | Some content => loads lim content
  | None => raise (Failure (py "cannot read the file"))
  end.

(** [enumerate(l)] *)
Fixpoint enumerate_from {A} (i : Z) (l : list A) : list (Z * A) :=
  match l with
  | [] => []
  | x :: l' => (i, x) :: enumerate_from (i + 1) l'
  end.

Definition nonempty (s : str) : bool :=
  match s with [] => false | _ :: _ => true end.

(** Lines 31-36: the items of a record inside a list. *)
Definition record_documents (file_name : str) (i : Z) (record : pydict)
  : list Document :=
  flat_map
    (fun kv =>
       let key := fst kv in
       match snd kv with
       | JStr value =>
           if nonempty (strip value) then
             [ {| page_content := strip value;
                  metadata := [ (py "source", JStr file_name);
                                (py "key", JStr key);
                                (py "index", JInt i) ] |} ]
           else []
       | _ => []
       end)
    record.

(** Lines 44-49: the items of a top-level object. *)
Definition object_documents (file_name : str) (json_data : pydict)
  : list Document :=
  flat_map
    (fun kv =>
       let key := fst kv in
       match snd kv with
       | JStr value =>
           if nonempty (strip value) then
             [ {| page_content := strip value;
                  metadata := [ (py "source", JStr file_name);
                                (py "key", JStr key) ] |} ]
           else []
       | _ => []
       end)
    json_data.

(** Lines 28-49: what one parsed file appends to [documents]. *)
Definition file_documents (file_name : str) (json_data : json)
  : list Document :=
  match json_data with
  | JList records =>
      flat_map
        (fun ir =>
           let i := fst ir in
           match snd ir with
           | JDict record => record_documents file_name i record
           | JStr record =>
               if nonempty (strip record) then
                 [ {| page_content := strip record;
                      metadata := [ (py "source", JStr file_name);
                                    (py "index", JInt i) ] |} ]
               else []
           | _ => []
           end)
        (enumerate_from 0 records)
  | JDict d => object_documents file_name d
  | _ => []
  end.

(** The body of the loop, lines 19-52, on the documents gathered so
    far.  The only statements of the [try] block that can raise are
    the [open] and the [json.load], before anything is appended. *)
Definition load_file (lim : limits) (documents : list Document) (f : file)
  : M (list Document) :=
  if negb (endswith (file_name f) (py ".json")) then ret documents
  else
    try_except
      (json_data <- json_load lim f ;;
       ret (documents ++ file_documents (file_name f) json_data))
      any_exception
      (fun _ => ret documents).

Fixpoint load_from (lim : limits) (documents : list Document)
    (folder : list file) : M (list Document) :=
  match folder with
  | [] => ret documents
  | f :: rest =>
      documents' <- load_file lim documents f ;;
      load_from lim documents' rest
  end.

(** [load_json_files(data_folder)], the folder being the entries
    [os.listdir] returns, in its order. *)
Definition load_json_files (lim : limits) (data_folder : list file)
  : M (list Document) :=
  load_from lim [] data_folder.

(** *** The loader as the specification words it *)

(** A key of a top-level object is kept when its value is a string
    that is not empty once stripped. *)
Definition kept (kv : str * json) : bool :=
  match snd kv with
  | JStr value => nonempty (strip value)
  | _ => false
  end.

(** The Record of a kept key: the stripped string, tagged with the
    file and the key. *)
Definition record_of (file_name : str) (kv : str * json) : Document :=
  {| page_content := match snd kv with JStr value => strip value | _ => [] end;
     metadata := [ (py "source", JStr file_name); (py "key", JStr (fst kv)) ] |}.

Definition records_of_object (file_name : str) (d : pydict) : list Document :=
  List.map (record_of file_name) (filter kept d).

(** What a folder entry contributes: the Records of its parsed
    content when it is a [.json] file that reads and loads, nothing
    otherwise. *)
Definition records_of_file (lim : limits) (f : file) : list Document :=
  if endswith (file_name f) (py ".json") then
    match file_text f with
    | Some content =>
        match json_loads lim content with
        | Loaded json_data => file_documents (file_name f) json_data
        | _ => []
        end
    | None => []
    end
  else [].

(** [value] is a string the loader looks at in [json_data]: a value of
    a top-level object, or an item of a top-level list, or a value of
    an object in such a list. *)
Definition string_in (value : str) (json_data : json) : Prop :=
  match json_data with
  | JDict d => exists key, In (key, JStr value) d
  | JList records =>
      exists record,
        In record records
        /\ (record = JStr value
            \/ exists d key, record = JDict d /\ In (key, JStr value) d)
  | _ => False
  end.

End Helper.

(* ================================================================== *)
(** ** Sample texts and services *)
(* ================================================================== *)

Module Samples.

(** The limits of a stock interpreter: 4300 digits, and room for some
    nine hundred nested containers. *)
Definition cpython : limits :=
  {| max_str_digits := 4300; nesting_room := 900 |}.

(** [Here is info {"filters": {"industry": "tech"}}] *)
Definition info_prefix : str := py "Here is info ".
Definition info_rest : str :=
  quoted "filters" ++ py ": {" ++ quoted "industry" ++ py ": "
  ++ quoted "tech" ++ py "}}".
Definition info_text : str := info_prefix ++ lbrace :: info_rest.

(** [Here is info {"industry": "tech"}]: an object without the
    ["filters"] key. *)
Definition bare_rest : str :=
  quoted "industry" ++ py ": " ++ quoted "tech" ++ py "}".
Definition bare_object : json := JDict [(py "industry", JStr (py "tech"))].
Definition bare_text : str := info_prefix ++ lbrace :: bare_rest.

(** [Use {braces} {"filters": {}}]: a prefix that has a brace of its own. *)
Definition braces_prefix : str := py "Use {braces} ".
Definition braces_rest : str := quoted "filters" ++ py ": {}}".
Definition braces_text : str := braces_prefix ++ lbrace :: braces_rest.

(** A reply without a brace, ending in a line feed. *)
Definition plain_text : str := py "No structured data available." ++ [10%N].

(** A reply whose blob is cut short. *)
Definition broken_text : str := py "Sorry {" ++ quoted "filters" ++ py ": ".

(** Services that are all down. *)
Definition offline : world := {|
  rag_chain_invoke := fun _ => inl (Failure (py "chain offline"));
  strftime_now := py "2025-01-01 00:00:00";
  insert_one := fun _ =>
    inl {| Store.write_error := Failure (py "store offline");
           Store.assigned_id := Some (py "65a0dead") |};
  json_limits := cpython;
  collection := inl (Failure (py "store offline"));
  index_query := fun _ => inl (Failure (py "index offline"));
  llm_invoke := fun _ _ => inl (Failure (py "model offline"));
  repair_json := fun _ => inl (Failure (py "no repair"));
  exn_text := fun _ => py "error"
|}.

(** The chain and the model answer [raw]; the store accepts writes and
    holds [entries]; the index returns [matches]; repair gives the
    text back unchanged. *)
Definition answering (raw : str) (entries : list Store.ChatEntry)
    (matches : list Pinecone.Match) : world := {|
  rag_chain_invoke := fun _ => inr (Some raw);
  strftime_now := py "2025-01-01 00:00:00";
  insert_one := fun _ => inr (py "65a0c0ffee");
  json_limits := cpython;
  collection := inr entries;
  index_query := fun _ => inr matches;
  llm_invoke := fun _ _ => inr raw;
  repair_json := fun text => inr text;
  exn_text := fun _ => py "error"
|}.

(** Two index matches: a plain value and a record without metadata. *)
Definition sample_matches : list Pinecone.Match :=
  [ {| Pinecone.metadata :=
         Some {| Pinecone.source := Some (py "company_type.json");
                 Pinecone.text := Some (JStr (py "Private Limited Company")) |} |};
    {| Pinecone.metadata := None |} ].

Definition sample_structured_output : json :=
  JDict [ (py "company_type.json",
           JList [ JDict [(py "text", JStr (py "Private Limited Company"))] ]) ].

(** A fenced model reply with a [validated_output] of its own. *)
Definition model_text : str :=
  py "```json{" ++ quoted "summary" ++ py ": " ++ quoted "ok" ++ py ", "
  ++ quoted "validated_output" ++ py ": {" ++ quoted "kept" ++ py ": []}}```".

(** The index and the model answer; repair raises. *)
Definition unrepaired (raw : str) (matches : list Pinecone.Match) : world := {|
  rag_chain_invoke := fun _ => inr (Some raw);
  strftime_now := py "2025-01-01 00:00:00";
  insert_one := fun _ =>
    inl {| Store.write_error := Failure (py "store offline");
           Store.assigned_id := Some (py "65a0dead") |};
  json_limits := cpython;
  collection := inl (Failure (py "store offline"));
  index_query := fun _ => inr matches;
  llm_invoke := fun _ _ => inr raw;
  repair_json := fun _ => inl (Failure (py "no repair"));
  exn_text := fun _ => py "error"
|}.

Definition hello_form : form := [(py "msg", py "hello")].

(** A folder with the one file [{"a": "x", "b": ""}], and a file of
    malformed JSON. *)
Definition ab_file : Helper.file :=
  {| Helper.file_name := py "data.json";
     Helper.file_text :=
       Some (py "{" ++ quoted "a" ++ py ": " ++ quoted "x" ++ py ", "
             ++ quoted "b" ++ py ": " ++ [dquote; dquote] ++ py "}") |}.

Definition bad_file : Helper.file :=
  {| Helper.file_name := py "broken.json";
     Helper.file_text := Some (py "{" ++ quoted "a" ++ py ": ") |}.

(** A list-shaped file: [[{"company_type": " Private "}, "  ", "Ltd", 7]]. *)
Definition list_file : Helper.file :=
  {| Helper.file_name := py "company_type.json";
     Helper.file_text :=
       Some (py "[{" ++ quoted "company_type" ++ py ": " ++ quoted " Private "
             ++ py "}, " ++ quoted "  " ++ py ", " ++ quoted "Ltd"
             ++ py ", 7]") |}.

(** Three stored entries, not in time order. *)
Definition entry (id stamp : string) : Store.ChatEntry :=
  {| Store.entry_id := py id;
     Store.user_input := py "hi";
     Store.answer := py "hello";
     Store.filters := JDict [];
     Store.timestamp := py stamp |}.

Definition three_entries : list Store.ChatEntry :=
  [ entry "a1" "2025-01-01 10:00:00";
    entry "a2" "2025-03-01 09:30:00";
    entry "a3" "2025-02-01 23:59:59" ].


(** The index and the model answer; repair turns any text into [fixed]. *)
Definition repairing (raw fixed : str) (matches : list Pinecone.Match)
  : world := {|
  rag_chain_invoke := fun _ => inr (Some raw);
  strftime_now := py "2025-01-01 00:00:00";
  insert_one := fun _ =>
    inl {| Store.write_error := Failure (py "store offline");
           Store.assigned_id := Some (py "65a0dead") |};
  json_limits := cpython;
  collection := inl (Failure (py "store offline"));
  index_query := fun _ => inr matches;
  llm_invoke := fun _ _ => inr raw;
  repair_json := fun _ => inr fixed;
  exn_text := fun _ => py "error"
|}.

(** [{"summary": "fixed"}] *)
Definition fixed_text : str :=
  py "{" ++ quoted "summary" ++ py ": " ++ quoted "fixed" ++ py "}".

(** A form whose message is two spaces. *)
Definition blank_form : form := [(py "msg", py "  ")].

(** Matches with a JSON text, a plain text under the same source, an
    empty text and a text without a source. *)
Definition mixed_matches : list Pinecone.Match :=
  [ {| Pinecone.metadata :=
         Some {| Pinecone.source := Some (py "a.json");
                 Pinecone.text :=
                   Some (JStr (py "{" ++ quoted "k" ++ py ": 1}")) |} |};
    {| Pinecone.metadata :=
         Some {| Pinecone.source := Some (py "a.json");
                 Pinecone.text := Some (JStr (py "plain")) |} |};
    {| Pinecone.metadata :=
         Some {| Pinecone.source := Some (py "b.json");
                 Pinecone.text := Some (JStr []) |} |};
    {| Pinecone.metadata :=
         Some {| Pinecone.source := None;
                 Pinecone.text := Some (JInt 7) |} |} ].

(** Entries of a folder that are not read: a text file and a
    directory named like a JSON file. *)
Definition notes_file : Helper.file :=
  {| Helper.file_name := py "notes.txt";
     Helper.file_text := Some (py "{" ++ quoted "a" ++ py ": " ++ quoted "x"
                               ++ py "}") |}.

Definition locked_file : Helper.file :=
  {| Helper.file_name := py "locked.json"; Helper.file_text := None |}.

Definition scalar_file : Helper.file :=
  {| Helper.file_name := py "seven.json"; Helper.file_text := Some (py "7") |}.


(** The chain answers [raw]; the history write raises, the driver
    having left [assigned] in the document. *)
Definition store_down (raw : str) (assigned : option str) : world := {|
  rag_chain_invoke := fun _ => inr (Some raw);
  strftime_now := py "2025-01-01 00:00:00";
  insert_one := fun _ =>
    inl {| Store.write_error := Failure (py "store offline");
           Store.assigned_id := assigned |};
  json_limits := cpython;
  collection := inl (Failure (py "store offline"));
  index_query := fun _ => inl (Failure (py "index offline"));
  llm_invoke := fun _ _ => inl (Failure (py "model offline"));
  repair_json := fun _ => inl (Failure (py "no repair"));
  exn_text := fun _ => py "error"
|}.

(** An integer of 4301 digits, and texts that hold it:
    [big {"filters": 11...1}] and [{"a": "x", "b": 11...1}]. *)
Definition long_integer : str := repeat 49%N 4301.

Definition long_rest : str :=
  quoted "filters" ++ py ": " ++ long_integer ++ py "}".
Definition long_text : str := py "big " ++ lbrace :: long_rest.


Definition long_file : Helper.file :=
  {| Helper.file_name := py "long.json";
     Helper.file_text :=
       Some (py "{" ++ quoted "a" ++ py ": " ++ quoted "x" ++ py ", "
             ++ quoted "b" ++ py ": " ++ long_integer ++ py "}") |}.

End Samples.

(* ================================================================== *)
(** * Properties *)
(* ================================================================== *)

Unset Implicit Arguments.

(** ** Strings *)

Lemma str_eqb_eq (a b : str) : str_eqb a b = true <-> a = b.
Proof.
  revert b; induction a as [|x a IH]; intros [|y b]; simpl;
    try (split; (discriminate || reflexivity)).
  rewrite andb_true_iff, N.eqb_eq, IH.
  split; [intros [-> ->]; reflexivity | intros E; inversion E; auto].
Qed.

Lemma str_eqb_refl (a : str) : str_eqb a a = true.
Proof. apply str_eqb_eq; reflexivity. Qed.

Lemma contains_false_iff (c : N) (s : str) :
  contains c s = false <-> ~ In c s.
Proof.
  unfold contains; induction s as [|x s IH]; simpl.
  - split; [intros _ [] | reflexivity].
  - rewrite orb_false_iff, IH, N.eqb_neq. intuition.
Qed.

Lemma contains_true_iff (c : N) (s : str) :
  contains c s = true <-> In c s.
Proof.
  unfold contains; rewrite existsb_exists; split.
  - intros [x [Hin E]]. apply N.eqb_eq in E. subst; assumption.
  - intros Hin; exists c; split; [assumption | apply N.eqb_refl].
Qed.

Lemma contains_app (c : N) (a b : str) :
  contains c (a ++ b) = contains c a || contains c b.
Proof. unfold contains; apply existsb_app. Qed.

(** Without the separator, [split] gives back the whole string. *)
Lemma split1_absent (c : N) (s : str) :
  contains c s = false -> split1 c s = [s].
Proof.
  unfold contains; induction s as [|x s IH]; simpl; [reflexivity|].
  intros H; apply orb_false_iff in H as [Hx Hs].
  rewrite Hx, (IH Hs); reflexivity.
Qed.

(** With it, [split] cuts at the leftmost occurrence. *)
Lemma split1_at (c : N) (p r : str) :
  contains c p = false -> split1 c (p ++ c :: r) = [p; r].
Proof.
  unfold contains; induction p as [|x p IH]; simpl.
  - intros _; rewrite N.eqb_refl; reflexivity.
  - intros H; apply orb_false_iff in H as [Hx Hp].
    rewrite Hx, (IH Hp); reflexivity.
Qed.

Lemma contains_split (c : N) (s : str) :
  contains c s = true ->
  exists p r, s = p ++ c :: r /\ contains c p = false.
Proof.
  unfold contains; induction s as [|x s IH]; simpl; [discriminate|].
  destruct (N.eqb_spec x c) as [->|Hne]; simpl.
  - intros _; exists [], s; split; reflexivity.
  - intros H; destruct (IH H) as (p & r & -> & Hp).
    exists (x :: p), r; split; [reflexivity|].
    simpl. apply N.eqb_neq in Hne. rewrite Hne; exact Hp.
Qed.

(** The cut is unique. *)
Lemma first_cut_unique (c : N) (p p' r r' : str) :
  contains c p = false -> contains c p' = false ->
  p ++ c :: r = p' ++ c :: r' -> p = p' /\ r = r'.
Proof.
  intros Hp Hp' E.
  assert (S : split1 c (p ++ c :: r) = split1 c (p' ++ c :: r'))
    by (rewrite E; reflexivity).
  rewrite !split1_at in S by assumption.
  inversion S; auto.
Qed.

(** *** [strip] *)

Lemma lstrip_suffix (s : str) : exists p, s = p ++ lstrip s.
Proof.
  induction s as [|c s [p IH]]; simpl.
  - exists []; reflexivity.
  - destruct (isspace c).
    + exists (c :: p); simpl; f_equal; exact IH.
    + exists []; reflexivity.
Qed.

Lemma lstrip_lstripped (s : str) : lstripped (lstrip s).
Proof.
  induction s as [|c s IH]; simpl; [exact I|].
  destruct (isspace c) eqn:E; [exact IH | simpl; exact E].
Qed.

Lemma lstrip_fixed (s : str) : lstripped s -> lstrip s = s.
Proof. destruct s as [|c s]; simpl; [reflexivity | intros ->; reflexivity]. Qed.

Lemma rstrip_prefix (s : str) : exists q, s = rstrip s ++ q.
Proof.
  unfold rstrip. destruct (lstrip_suffix (rev s)) as [p E].
  exists (rev p).
  rewrite <- rev_app_distr, <- E, rev_involutive; reflexivity.
Qed.

Lemma rstrip_lstripped (s : str) : lstripped s -> lstripped (rstrip s).
Proof.
  intros H. destruct (rstrip_prefix s) as [q E].
  destruct (rstrip s) as [|c t]; [exact I|].
  rewrite E in H; exact H.
Qed.

Lemma rstrip_idem (s : str) : rstrip (rstrip s) = rstrip s.
Proof.
  unfold rstrip. rewrite rev_involutive.
  rewrite (lstrip_fixed _ (lstrip_lstripped (rev s))); reflexivity.
Qed.

(** Stripping twice is stripping once. *)
Lemma strip_idem (s : str) : strip (strip s) = strip s.
Proof.
  unfold strip.
  rewrite (lstrip_fixed _ (rstrip_lstripped _ (lstrip_lstripped s))).
  apply rstrip_idem.
Qed.

Lemma strip_nil : strip [] = [].
Proof. reflexivity. Qed.

Lemma In_lstrip (c : N) (s : str) : In c (lstrip s) -> In c s.
Proof.
  destruct (lstrip_suffix s) as [p E]. intros H.
  rewrite E; apply in_or_app; right; exact H.
Qed.

Lemma In_strip (c : N) (s : str) : In c (strip s) -> In c s.
Proof.
  unfold strip, rstrip. intros H.
  apply In_lstrip. apply in_rev in H. apply In_lstrip in H.
  apply in_rev in H. exact H.
Qed.

(** [strip] brings in no character: a string without [c] stays so. *)
Lemma strip_keeps_absent (c : N) (s : str) :
  contains c s = false -> contains c (strip s) = false.
Proof.
  rewrite !contains_false_iff. intros H Hin; apply H, In_strip, Hin.
Qed.

(** ** The scanner reads forward and its budget suffices *)

Lemma skip_ws_length (s : str) : List.length (skip_ws s) <= List.length s.
Proof.
  induction s as [|c s IH]; simpl; [lia|].
  destruct (is_ws c); simpl; lia.
Qed.

Lemma skip_ws_cons (s r : str) (c : N) :
  skip_ws s = c :: r -> List.length r < List.length s.
Proof.
  intros E. pose proof (skip_ws_length s) as L.
  rewrite E in L; simpl in L; lia.
Qed.

Lemma skip_ws_head (s r : str) (c : N) :
  skip_ws s = c :: r -> is_ws c = false.
Proof.
  induction s as [|x s IH]; simpl; [discriminate|].
  destruct (is_ws x) eqn:E; [exact IH|].
  intros H; inversion H; subst; exact E.
Qed.

Lemma scanstring_from_shrinks (s : str) :
  forall pending acc k r,
    scanstring_from pending acc s = Some (k, r) ->
    List.length r < List.length s.
Proof.
  assert (G : forall n s, List.length s <= n ->
              forall pending acc k r,
                scanstring_from pending acc s = Some (k, r) ->
                List.length r < List.length s).
  { induction n as [|n IH]; intros s0 L pending acc k r H.
    - destruct s0; [discriminate H | simpl in L; lia].
    - destruct s0 as [|c s1]; [discriminate H|].
      simpl in L. simpl in H.
      destruct (c =? dquote)%N.
      { inversion H; subst; simpl; lia. }
      destruct (c =? backslash)%N.
      + destruct s1 as [|e s2]; [discriminate H|].
        destruct (e =? 117)%N.
        * destruct s2 as [|h1 [|h2 [|h3 [|h4 t]]]]; try discriminate H.
          simpl in L |- *.
          assert (Lt : List.length t <= n) by lia.
          destruct (hex4 h1 h2 h3 h4); [|discriminate H].
          destruct pending;
            repeat match type of H with
                   | context [if ?b then _ else _] => destruct b
                   end;
            apply (IH _ Lt) in H; lia.
        * destruct (unescape e); [|discriminate H].
          simpl in L |- *.
          apply IH in H; [lia | lia].
      + destruct (c <? 32)%N; [discriminate H|].
        apply IH in H; [simpl; lia | lia]. }
  intros; eapply G; [apply Nat.le_refl | eassumption].
Qed.

Lemma scanstring_shrinks (s k r : str) :
  scanstring s = Some (k, r) -> List.length r < List.length s.
Proof. apply scanstring_from_shrinks. Qed.

Lemma span_length (p : N -> bool) (s a b : str) :
  span p s = (a, b) -> List.length s = List.length a + List.length b.
Proof.
  revert a b; induction s as [|c s IH]; simpl; intros a b H.
  - inversion H; reflexivity.
  - destruct (p c).
    + destruct (span p s) as [a' b'] eqn:E. inversion H; subst.
      simpl; rewrite (IH _ _ eq_refl); reflexivity.
    + inversion H; subst; reflexivity.
Qed.

Lemma strip_prefix_length (p s r : str) :
  strip_prefix p s = Some r ->
  List.length s = List.length p + List.length r.
Proof.
  revert s; induction p as [|x p IH]; intros [|y s]; simpl; intros H;
    try discriminate H; try (inversion H; subst; reflexivity).
  destruct (x =? y)%N; [|discriminate H].
  rewrite (IH _ H); reflexivity.
Qed.

Lemma keyword_shrinks (w : string) (v v' : json) (s r : str) :
  py w <> [] -> keyword w v s = Some (v', r) ->
  List.length r < List.length s.
Proof.
  unfold keyword. intros Hw H.
  destruct (strip_prefix (py w) s) as [r'|] eqn:E; [|discriminate H].
  inversion H; subst. apply strip_prefix_length in E.
  destruct (py w); [contradiction | simpl in E; lia].
Qed.

Lemma int_part_shrinks (s ds r : str) :
  int_part s = Some (ds, r) -> List.length r < List.length s.
Proof.
  unfold int_part. destruct s as [|c s]; [discriminate|].
  destruct (c =? 48)%N.
  - intros H; inversion H; subst; simpl; lia.
  - destruct (is_digit c) eqn:D; [|discriminate].
    simpl. rewrite D. destruct (span is_digit s) as [a b] eqn:E.
    intros H; inversion H; subst.
    apply span_length in E. simpl; lia.
Qed.

Lemma frac_part_length (s fr r : str) :
  frac_part s = (fr, r) -> List.length r <= List.length s.
Proof.
  unfold frac_part. destruct s as [|c s]; [intros H; inversion H; auto|].
  destruct (c =? 46)%N.
  - destruct (span is_digit s) as [a b] eqn:E. apply span_length in E.
    destruct a; intros H; inversion H; subst; simpl in *; lia.
  - intros H; inversion H; subst; auto.
Qed.

Lemma exp_part_length (s ex r : str) :
  exp_part s = (ex, r) -> List.length r <= List.length s.
Proof.
  unfold exp_part. destruct s as [|c s]; [intros H; inversion H; auto|].
  destruct (is_exp_mark c); [|intros H; inversion H; subst; auto].
  destruct s as [|g s]; [intros H; inversion H; subst; auto|].
  destruct (is_sign g).
  - destruct (span is_digit s) as [a b] eqn:E. apply span_length in E.
    destruct a; intros H; inversion H; subst; simpl in *; lia.
  - destruct (span is_digit (g :: s)) as [a b] eqn:E. apply span_length in E.
    destruct a; intros H; inversion H; subst; simpl in *; lia.
Qed.

Lemma match_number_shrinks (s r : str) (t : number) :
  match_number s = Some (t, r) -> List.length r < List.length s.
Proof.
  unfold match_number.
  set (p := match s with
            | c :: s' => if (c =? 45)%N then (true, s') else (false, s)
            | [] => (false, s)
            end).
  assert (L : List.length (snd p) <= List.length s).
  { subst p. destruct s as [|c s]; simpl; [lia|].
    destruct (c =? 45)%N; simpl; lia. }
  destruct p as [neg s0]. simpl in L.
  destruct (int_part s0) as [[ds r0]|] eqn:Ei; [|discriminate].
  apply int_part_shrinks in Ei.
  destruct (frac_part r0) as [fr r1] eqn:Ef. apply frac_part_length in Ef.
  destruct (exp_part r1) as [ex r2] eqn:Ee. apply exp_part_length in Ee.
  destruct fr, ex; intros H; inversion H; subst; lia.
Qed.

Lemma scan_atom_shrinks (lim : limits) (s r : str) (v : json) :
  scan_atom lim s = Scanned v r -> List.length r < List.length s.
Proof.
  unfold scan_atom, or_else, of_option. intros H.
  repeat match type of H with
         | context [match keyword ?w ?x s with _ => _ end] =>
             let E := fresh "E" in
             destruct (keyword w x s) as [[? ?]|] eqn:E;
               [ inversion H; subst;
                 apply keyword_shrinks in E; [exact E | discriminate] | ]
         | context [match match_number s with _ => _ end] =>
             let E := fresh "E" in
             destruct (match_number s) as [[[neg ds|lexeme] ?]|] eqn:E;
               [ apply match_number_shrinks in E;
                 destruct (too_many_digits lim ds);
                   [discriminate H | inversion H; subst; exact E]
               | apply match_number_shrinks in E;
                 inversion H; subst; exact E
               | ]
         end.
  discriminate H.
Qed.

Lemma scan_atom_fuelled (lim : limits) (s : str) :
  scan_atom lim s <> OutOfFuel.
Proof.
  unfold scan_atom, or_else, of_option.
  repeat match goal with
         | |- context [match keyword ?w ?x s with _ => _ end] =>
             destruct (keyword w x s) as [[? ?]|]; [discriminate|]
         | |- context [match match_number s with _ => _ end] =>
             destruct (match_number s) as [[[neg ds|lexeme] ?]|];
               [destruct (too_many_digits lim ds); discriminate
               | discriminate | ]
         end.
  discriminate.
Qed.

(** A scanned value leaves a strictly shorter rest. *)
Lemma scan_shrinks (lim : limits) (n : nat) :
  (forall depth s v r, scan_once lim n depth s = Scanned v r ->
                       List.length r < List.length s)
  /\ (forall depth s v r, JSONObject lim n depth s = Scanned v r ->
                          List.length r < List.length s)
  /\ (forall depth pairs s v r,
        object_loop lim n depth pairs s = Scanned v r ->
        List.length r < List.length s)
  /\ (forall depth s v r, JSONArray lim n depth s = Scanned v r ->
                          List.length r < List.length s)
  /\ (forall depth values s v r,
        array_loop lim n depth values s = Scanned v r ->
        List.length r < List.length s).
Proof.
  induction n as [|n (IHs & IHo & IHol & IHa & IHal)].
  { repeat split; intros; discriminate. }
  repeat split.
  - intros depth s v r H. destruct s as [|c s']; [discriminate H|].
    simpl in H.
    destruct (c =? dquote)%N.
    { destruct (scanstring s') as [[k r']|] eqn:E; [|discriminate H].
      inversion H; subst. apply scanstring_shrinks in E. simpl; lia. }
    destruct (c =? lbrace)%N.
    { destruct depth as [|d]; [discriminate H|].
      apply IHo in H; simpl; lia. }
    destruct (c =? lbracket)%N.
    { destruct depth as [|d]; [discriminate H|].
      apply IHa in H; simpl; lia. }
    apply scan_atom_shrinks in H; exact H.
  - intros depth s v r H. simpl in H.
    destruct (skip_ws s) as [|c s'] eqn:E; [discriminate H|].
    apply skip_ws_cons in E.
    destruct (c =? rbrace)%N; [inversion H; subst; exact E|].
    destruct (c =? dquote)%N; [|discriminate H].
    apply IHol in H; lia.
  - intros depth pairs s v r H. simpl in H.
    destruct (scanstring s) as [[key r0]|] eqn:Ek; [|discriminate H].
    apply scanstring_shrinks in Ek.
    destruct (skip_ws r0) as [|c r1] eqn:E1; [discriminate H|].
    apply skip_ws_cons in E1.
    destruct (c =? colon)%N; [|discriminate H].
    destruct (scan_once lim n depth (skip_ws r1)) as [value r2| | |] eqn:Ev;
      try discriminate H.
    apply IHs in Ev. pose proof (skip_ws_length r1) as L1.
    destruct (skip_ws r2) as [|d r3] eqn:E3; [discriminate H|].
    apply skip_ws_cons in E3.
    destruct (d =? rbrace)%N; [inversion H; subst; lia|].
    destruct (d =? comma)%N; [|discriminate H].
    destruct (skip_ws r3) as [|q r4] eqn:E4; [discriminate H|].
    apply skip_ws_cons in E4.
    destruct (q =? dquote)%N; [|discriminate H].
    apply IHol in H; lia.
  - intros depth s v r H. simpl in H.
    destruct (skip_ws s) as [|c s'] eqn:E; [discriminate H|].
    pose proof (skip_ws_length s) as L. rewrite E in L.
    apply skip_ws_cons in E.
    destruct (c =? rbracket)%N; [inversion H; subst; exact E|].
    apply IHal in H; lia.
  - intros depth values s v r H. simpl in H.
    destruct (scan_once lim n depth s) as [value r0| | |] eqn:Ev;
      try discriminate H.
    apply IHs in Ev.
    destruct (skip_ws r0) as [|d r1] eqn:E1; [discriminate H|].
    apply skip_ws_cons in E1.
    destruct (d =? rbracket)%N; [inversion H; subst; lia|].
    destruct (d =? comma)%N; [|discriminate H].
    apply IHal in H. pose proof (skip_ws_length r1); lia.
Qed.

(** With a budget above three characters' worth per character read,
    the scanner never stops for want of budget. *)
Lemma scan_budget (lim : limits) (n : nat) :
  (forall depth s, 3 * List.length s < n ->
                   scan_once lim n depth s <> OutOfFuel)
  /\ (forall depth s, 3 * List.length s + 2 < n ->
                      JSONObject lim n depth s <> OutOfFuel)
  /\ (forall depth pairs s, 3 * List.length s + 1 < n ->
                            object_loop lim n depth pairs s <> OutOfFuel)
  /\ (forall depth s, 3 * List.length s + 2 < n ->
                      JSONArray lim n depth s <> OutOfFuel)
  /\ (forall depth values s, 3 * List.length s + 1 < n ->
                             array_loop lim n depth values s <> OutOfFuel).
Proof.
  induction n as [|n (IHs & IHo & IHol & IHa & IHal)].
  { repeat split; intros; lia. }
  destruct (scan_shrinks lim n) as (Ss & _ & _ & _ & _).
  repeat split.
  - intros depth s L H. destruct s as [|c s']; [discriminate H|].
    simpl in L, H.
    destruct (c =? dquote)%N.
    { destruct (scanstring s') as [[k r']|]; discriminate H. }
    destruct (c =? lbrace)%N.
    { destruct depth as [|d]; [discriminate H|].
      revert H; apply IHo; lia. }
    destruct (c =? lbracket)%N.
    { destruct depth as [|d]; [discriminate H|].
      revert H; apply IHa; lia. }
    revert H; apply scan_atom_fuelled.
  - intros depth s L H. simpl in H.
    destruct (skip_ws s) as [|c s'] eqn:E; [discriminate H|].
    apply skip_ws_cons in E.
    destruct (c =? rbrace)%N; [discriminate H|].
    destruct (c =? dquote)%N; [|discriminate H].
    revert H; apply IHol; lia.
  - intros depth pairs s L H. simpl in H.
    destruct (scanstring s) as [[key r0]|] eqn:Ek; [|discriminate H].
    apply scanstring_shrinks in Ek.
    destruct (skip_ws r0) as [|c r1] eqn:E1; [discriminate H|].
    apply skip_ws_cons in E1.
    destruct (c =? colon)%N; [|discriminate H].
    pose proof (skip_ws_length r1) as L1.
    destruct (scan_once lim n depth (skip_ws r1)) as [value r2| | |] eqn:Ev;
      [ | discriminate H | discriminate H | revert Ev; apply IHs; lia ].
    apply Ss in Ev.
    destruct (skip_ws r2) as [|d r3] eqn:E3; [discriminate H|].
    apply skip_ws_cons in E3.
    destruct (d =? rbrace)%N; [discriminate H|].
    destruct (d =? comma)%N; [|discriminate H].
    destruct (skip_ws r3) as [|q r4] eqn:E4; [discriminate H|].
    apply skip_ws_cons in E4.
    destruct (q =? dquote)%N; [|discriminate H].
    revert H; apply IHol; lia.
  - intros depth s L H. simpl in H.
    destruct (skip_ws s) as [|c s'] eqn:E; [discriminate H|].
    pose proof (skip_ws_length s) as L0. rewrite E in L0.
    destruct (c =? rbracket)%N; [discriminate H|].
    revert H; apply IHal; lia.
  - intros depth values s L H. simpl in H.
    destruct (scan_once lim n depth s) as [value r0| | |] eqn:Ev;
      [ | discriminate H | discriminate H | revert Ev; apply IHs; lia ].
    apply Ss in Ev.
    destruct (skip_ws r0) as [|d r1] eqn:E1; [discriminate H|].
    apply skip_ws_cons in E1.
    destruct (d =? rbracket)%N; [discriminate H|].
    destruct (d =? comma)%N; [|discriminate H].
    pose proof (skip_ws_length r1).
    revert H; apply IHal; lia.
Qed.

(** The budget of [json.loads] never runs out: it answers with a
    value, or raises [JSONDecodeError], [ValueError] for an integer
    too long, or [RecursionError]. *)
Lemma json_loads_total (lim : limits) (s : str) :
  json_loads lim s <> Exhausted.
Proof.
  assert (D : decode lim (S (3 * List.length s)) s <> Exhausted).
  { unfold decode.
    destruct (scan_once lim (S (3 * List.length s)) (S (nesting_room lim))
                (skip_ws s)) as [v r| |[|]|] eqn:E.
    - destruct (skip_ws r); discriminate.
    - discriminate.
    - discriminate.
    - discriminate.
    - exfalso. revert E.
      apply (proj1 (scan_budget lim (S (3 * List.length s)))).
      pose proof (skip_ws_length s); lia. }
  unfold json_loads. destruct s as [|c s']; [exact D|].
  destruct c as [|p]; [exact D|].
  repeat (destruct p as [p|p|]; try exact D); discriminate.
Qed.

(** A text that opens with a brace loads, if at all, as a dict. *)
Lemma object_loop_dict (lim : limits) (n : nat) :
  forall depth pairs s v r,
    object_loop lim n depth pairs s = Scanned v r -> exists d, v = JDict d.
Proof.
  induction n as [|n IH]; intros depth pairs s v r H; [discriminate H|].
  simpl in H.
  destruct (scanstring s) as [[key r0]|]; [|discriminate H].
  destruct (skip_ws r0) as [|c r1]; [discriminate H|].
  destruct (c =? colon)%N; [|discriminate H].
  destruct (scan_once lim n depth (skip_ws r1)) as [value r2| | |];
    try discriminate H.
  destruct (skip_ws r2) as [|d r3]; [discriminate H|].
  destruct (d =? rbrace)%N; [inversion H; subst; eexists; reflexivity|].
  destruct (d =? comma)%N; [|discriminate H].
  destruct (skip_ws r3) as [|q r4]; [discriminate H|].
  destruct (q =? dquote)%N; [|discriminate H].
  eapply IH; eassumption.
Qed.

Lemma JSONObject_dict (lim : limits) (n depth : nat) (s r : str) (v : json) :
  JSONObject lim n depth s = Scanned v r -> exists d, v = JDict d.
Proof.
  destruct n as [|n]; [discriminate|]. simpl.
  destruct (skip_ws s) as [|c s']; [discriminate|].
  destruct (c =? rbrace)%N.
  - intros H; inversion H; subst; eexists; reflexivity.
  - destruct (c =? dquote)%N; [|discriminate].
    apply object_loop_dict.
Qed.

Lemma json_loads_brace_dict (lim : limits) (s : str) (v : json) :
  json_loads lim (lbrace :: s) = Loaded v -> exists d, v = JDict d.
Proof.
  unfold json_loads.
  change (match lbrace :: s with
          | 65279%N :: _ => DecodeError
          | _ => decode lim (S (3 * List.length (lbrace :: s))) (lbrace :: s)
          end)
    with (decode lim (S (3 * List.length (lbrace :: s))) (lbrace :: s)).
  unfold decode.
  change (skip_ws (lbrace :: s)) with (lbrace :: s).
  set (n := 3 * List.length (lbrace :: s)).
  change (scan_once lim (S n) (S (nesting_room lim)) (lbrace :: s))
    with (JSONObject lim n (nesting_room lim) s).
  destruct (JSONObject lim n (nesting_room lim) s) as [v' r| |[|]|] eqn:E;
    try discriminate.
  destruct (skip_ws r); [|discriminate].
  intros H; inversion H; subst.
  eapply JSONObject_dict; eassumption.
Qed.

(** The empty object loads under every limit. *)
Lemma json_loads_empty_object (lim : limits) :
  json_loads lim (py "{}") = Loaded (JDict []).
Proof. reflexivity. Qed.

(** ** The output extraction of [app.py] *)

Lemma loads_loaded (lim : limits) (s : str) (v : json) :
  json_loads lim s = Loaded v -> loads lim s = ret v.
Proof. unfold loads; intros ->; reflexivity. Qed.


Lemma split_answer_absent (raw : str) :
  contains lbrace raw = false ->
  App.split_answer raw = ret (raw, py "{}").
Proof. unfold App.split_answer; intros ->; reflexivity. Qed.

Lemma split_answer_present (prefix rest : str) :
  contains lbrace prefix = false ->
  App.split_answer (prefix ++ lbrace :: rest)
  = ret (strip prefix, lbrace :: rest).
Proof.
  intros Hp. unfold App.split_answer.
  rewrite contains_app. simpl. rewrite orb_true_r.
  rewrite (split1_at _ _ _ Hp). reflexivity.
Qed.

(** The parse step on a blob that loads: the ["filters"] entry of the
    loaded dict, or the empty dict. *)
Lemma parse_filters_loaded (w : world) (json_part : str) (obj : json) :
  json_loads (json_limits w) (lbrace :: json_part) = Loaded obj ->
  App.parse_filters w (lbrace :: json_part)
  = ret (match field obj "filters" with
         | Some v => v
         | None => JDict []
         end).
Proof.
  intros H. destruct (json_loads_brace_dict _ _ _ H) as [d ->].
  unfold App.parse_filters. rewrite (loads_loaded _ _ _ H). reflexivity.
Qed.


(** The parse step on a blob that [json.loads] refuses without a
    [JSONDecodeError]: the exception is not caught. *)
Lemma parse_filters_refused (w : world) (json_part : str) :
  (json_loads (json_limits w) json_part = DigitsError ->
   App.parse_filters w json_part = raise IntDigitsError)
  /\ (json_loads (json_limits w) json_part = DepthError ->
      App.parse_filters w json_part = raise RecursionError).
Proof.
  unfold App.parse_filters, loads.
  split; intros ->; reflexivity.
Qed.

(** The parse step makes no call, and returns or raises. *)
Lemma parse_filters_quiet (w : world) (json_part : str) :
  (exists filters, App.parse_filters w json_part = ret filters)
  \/ (exists e, App.parse_filters w json_part = raise e).
Proof.
  unfold App.parse_filters, loads.
  destruct (json_loads (json_limits w) json_part) as [obj| | | |];
    try (right; eexists; reflexivity);
    try (left; eexists; reflexivity).
  destruct obj; try (right; eexists; reflexivity).
  left; eexists; reflexivity.
Qed.

Lemma extract_of_split (w : world) (raw human json_part : str)
    (filters : json) :
  App.split_answer raw = ret (human, json_part) ->
  App.parse_filters w json_part = ret filters ->
  App.extract w raw = ret (human, filters).
Proof.
  intros Hs Hp. unfold App.extract. rewrite Hs. simpl.
  rewrite Hp. reflexivity.
Qed.

Lemma extract_raises_of_split (w : world) (raw human json_part : str)
    (e : exn) :
  App.split_answer raw = ret (human, json_part) ->
  App.parse_filters w json_part = raise e ->
  App.extract w raw = raise e.
Proof.
  intros Hs Hp. unfold App.extract. rewrite Hs. simpl.
  rewrite Hp. reflexivity.
Qed.

(** The split step returns for every text, with a brace-free human
    text. *)
Lemma split_answer_returns (raw : str) :
  exists human json_part,
    App.split_answer raw = ret (human, json_part)
    /\ contains lbrace human = false
    /\ (contains lbrace raw = false ->
        human = raw /\ json_part = py "{}")
    /\ (contains lbrace raw = true ->
        exists prefix rest,
          raw = prefix ++ json_part
          /\ json_part = lbrace :: rest
          /\ contains lbrace prefix = false
          /\ human = strip prefix).
Proof.
  destruct (contains lbrace raw) eqn:E.
  - destruct (contains_split _ _ E) as (prefix & rest & -> & Hp).
    exists (strip prefix), (lbrace :: rest).
    split; [apply split_answer_present; exact Hp|].
    split; [apply strip_keeps_absent; exact Hp|].
    split; [discriminate|].
    intros _. exists prefix, rest. repeat split. exact Hp.
  - exists raw, (py "{}").
    split; [apply split_answer_absent; exact E|].
    split; [exact E|].
    split; [intros _; split; reflexivity | discriminate].
Qed.

(** The extraction makes no call; it returns the human text of the
    split step, or raises. *)
Lemma extract_outcome (w : world) (raw : str) :
  exists human,
    contains lbrace human = false
    /\ ((exists filters, App.extract w raw = ret (human, filters))
        \/ (exists e, App.extract w raw = raise e)).
Proof.
  destruct (split_answer_returns raw) as (human & json_part & Hs & Hb & _).
  exists human. split; [exact Hb|].
  destruct (parse_filters_quiet w json_part) as [[filters Hp]|[e Hp]].
  - left. exists filters. apply (extract_of_split _ _ _ _ _ Hs Hp).
  - right. exists e. apply (extract_raises_of_split _ _ _ _ _ Hs Hp).
Qed.

(** Claim C1, as amended.  For a raw text [prefix ++ "{" ++ rest] whose
    prefix has no brace and whose part from the brace on is loaded by
    [json.loads] (then as an object), the extraction returns the
    prefix stripped of surrounding white space as the human text and,
    as filters, the object's ["filters"] entry when it has one and the
    empty object when it has none. *)
Theorem extract_object_suffix (w : world) (prefix rest : str) (obj : json) :
  contains lbrace prefix = false ->
  json_loads (json_limits w) (lbrace :: rest) = Loaded obj ->
  (exists d, obj = JDict d)
  /\ App.extract w (prefix ++ lbrace :: rest)
     = ret (strip prefix,
            match field obj "filters" with
            | Some v => v
            | None => JDict []
            end).
Proof.
  intros Hp Hl. split; [exact (json_loads_brace_dict _ _ _ Hl)|].
  apply extract_of_split with (json_part := lbrace :: rest).
  - apply split_answer_present; exact Hp.
  - apply parse_filters_loaded; exact Hl.
Qed.

(** The spec's example: [Here is info {"filters": {"industry": "tech"}}]
    gives [Here is info] and [{"industry": "tech"}]. *)
Lemma extract_object_suffix_witness :
  App.extract Samples.offline Samples.info_text
  = ret (py "Here is info", JDict [(py "industry", JStr (py "tech"))]).
Proof.
  exact (proj2 (extract_object_suffix Samples.offline
                  Samples.info_prefix Samples.info_rest
                  (JDict [(py "filters",
                           JDict [(py "industry", JStr (py "tech"))])])
                  eq_refl eq_refl)).
Defined.

(** Claim C1 as stated fails twice.  An object without a ["filters"]
    key gives the empty object as filters, not the object; and a prefix
    with a brace of its own is cut at that brace, so the human text is
    not the stripped prefix. *)
Lemma extract_object_itself_counterexample :
  (contains lbrace Samples.info_prefix = false
   /\ json_loads Samples.cpython (lbrace :: Samples.bare_rest)
      = Loaded Samples.bare_object
   /\ field Samples.bare_object "filters" = None
   /\ App.extract Samples.offline
        (Samples.info_prefix ++ lbrace :: Samples.bare_rest)
      = ret (py "Here is info", JDict [])
   /\ JDict [] <> Samples.bare_object)
  /\ (json_loads Samples.cpython (lbrace :: Samples.braces_rest)
      = Loaded (JDict [(py "filters", JDict [])])
      /\ App.extract Samples.offline
           (Samples.braces_prefix ++ lbrace :: Samples.braces_rest)
         = ret (py "Use", JDict [])
      /\ strip Samples.braces_prefix = py "Use {braces}"
      /\ py "Use" <> strip Samples.braces_prefix).
Proof.
  split.
  - repeat split; try reflexivity. discriminate.
  - repeat split; try reflexivity. discriminate.
Qed.

(** An object that is valid JSON but holds an integer of 4301 digits is
    not loaded: [int] raises [ValueError], which the handler's
    [except json.JSONDecodeError] does not catch. *)
Example extract_long_integer :
  json_loads Samples.cpython (lbrace :: Samples.long_rest) = DigitsError
  /\ App.extract Samples.offline Samples.long_text = raise IntDigitsError.
Proof. split; vm_compute; reflexivity. Qed.

(** Claim C2, as amended.  A raw text without a brace is returned whole
    and unchanged as the human text (this branch does not strip it),
    with the empty object as filters. *)
Theorem extract_without_brace (w : world) (raw : str) :
  contains lbrace raw = false ->
  App.extract w raw = ret (raw, JDict []).
Proof.
  intros H. apply extract_of_split with (json_part := py "{}").
  - apply split_answer_absent; exact H.
  - reflexivity.
Qed.

(** The spec's example [No structured data available.] *)
Lemma extract_without_brace_witness :
  App.extract Samples.offline (py "No structured data available.")
  = ret (py "No structured data available.", JDict []).
Proof.
  exact (extract_without_brace Samples.offline
           (py "No structured data available.") eq_refl).
Defined.

(** Claim C2 as stated fails: a reply that ends in a line feed keeps
    it, while its stripped form has none. *)
Lemma extract_untrimmed_counterexample :
  contains lbrace Samples.plain_text = false
  /\ App.extract Samples.offline Samples.plain_text
     = ret (Samples.plain_text, JDict [])
  /\ strip Samples.plain_text = py "No structured data available."
  /\ Samples.plain_text <> strip Samples.plain_text.
Proof. repeat split; try reflexivity. discriminate. Qed.

(** Claim C9, as amended.  For every raw text the split step returns,
    with a human text that has no brace.  Without a brace in the raw
    text the human text is the raw text.  Otherwise the raw text is a
    brace-free prefix followed by the candidate blob, the blob starts
    at the first brace and so holds every brace of the text, and the
    human text is that prefix with surrounding white space stripped.
    Whenever the extraction returns, its human text is the one of the
    split step. *)
Theorem human_text_has_no_brace (w : world) (raw : str) :
  exists human json_part,
    App.split_answer raw = ret (human, json_part)
    /\ contains lbrace human = false
    /\ (contains lbrace raw = false -> human = raw)
    /\ (contains lbrace raw = true ->
        exists prefix rest,
          raw = prefix ++ json_part
          /\ json_part = lbrace :: rest
          /\ contains lbrace prefix = false
          /\ human = strip prefix)
    /\ (forall h filters,
          App.extract w raw = ret (h, filters) -> h = human).
Proof.
  destruct (split_answer_returns raw)
    as (human & json_part & Hs & Hb & Hno & Hyes).
  exists human, json_part.
  split; [exact Hs|]. split; [exact Hb|].
  split; [intros H; apply (proj1 (Hno H))|].
  split; [exact Hyes|].
  intros h filters He. unfold App.extract in He. rewrite Hs in He.
  simpl in He.
  destruct (App.parse_filters w json_part) as [t [e|f]]; simpl in He.
  - discriminate He.
  - inversion He; reflexivity.
Qed.

Lemma human_text_has_no_brace_witness :
  exists human json_part,
    App.split_answer Samples.braces_text = ret (human, json_part)
    /\ contains lbrace human = false
    /\ (contains lbrace Samples.braces_text = false ->
        human = Samples.braces_text)
    /\ (contains lbrace Samples.braces_text = true ->
        exists prefix rest,
          Samples.braces_text = prefix ++ json_part
          /\ json_part = lbrace :: rest
          /\ contains lbrace prefix = false
          /\ human = strip prefix)
    /\ (forall h filters,
          App.extract Samples.offline Samples.braces_text = ret (h, filters) ->
          h = human).
Proof.
  exact (human_text_has_no_brace Samples.offline Samples.braces_text).
Defined.

(** Claim C9 as stated fails where it says the human text is the
    prefix: with white space before the first brace the human text is
    the prefix without that white space. *)
Lemma human_text_is_prefix_counterexample :
  Samples.info_text = Samples.info_prefix ++ lbrace :: Samples.info_rest
  /\ contains lbrace Samples.info_prefix = false
  /\ App.split_answer Samples.info_text
     = ret (py "Here is info", lbrace :: Samples.info_rest)
  /\ py "Here is info" <> Samples.info_prefix.
Proof. repeat split; try reflexivity. discriminate. Qed.

(** ** The [/get] handlers *)

(** [chat] on a message the chain answers and whose answer the
    extraction accepts: one chain call, one store write. *)
Lemma chat_reply (w : world) (request_form : form) (msg : str)
    (answer : option str) (human : str) (filters : json) :
  form_get request_form (py "msg") = Some msg ->
  msg <> [] ->
  rag_chain_invoke w msg = inr answer ->
  App.extract w (match answer with Some a => a | None => [] end)
  = ret (human, filters) ->
  serve (App.chat w request_form)
  = ([RagChainInvoke msg; InsertOne (App.chat_entry w msg human filters)],
     App.chat_answer (App.chat_entry w msg human filters)
       (insert_one w (App.chat_entry w msg human filters))).
Proof.
  intros Hf Hm Hc He. unfold App.chat. rewrite Hf.
  destruct msg as [|c msg]; [contradiction|].
  unfold call, bind at 1. rewrite Hc. rewrite He.
  unfold App.chat_entry, App.chat_answer.
  cbv beta iota zeta delta [bind ret call try_except any_exception].
  destruct (insert_one w _) as [[e [oid|]]|inserted_id]; reflexivity.
Qed.

(** [chat] on a message the chain answers and whose answer makes the
    extraction raise: the exception escapes before the store call. *)
Lemma chat_extract_raises (w : world) (request_form : form) (msg : str)
    (answer : option str) (e : exn) :
  form_get request_form (py "msg") = Some msg ->
  msg <> [] ->
  rag_chain_invoke w msg = inr answer ->
  App.extract w (match answer with Some a => a | None => [] end)
  = raise e ->
  App.chat w request_form = ([RagChainInvoke msg], inl e).
Proof.
  intros Hf Hm Hc He. unfold App.chat. rewrite Hf.
  destruct msg as [|c msg]; [contradiction|].
  unfold call, bind at 1. rewrite Hc. rewrite He. reflexivity.
Qed.


(** *** Computations that make no external call *)






(** *** The grouping loop returns *)



(** *** The reply of the repair variant's model step *)








(** Claim C3, as amended.  A request whose [msg] field is missing or
    empty makes no external call in any variant (no retrieval, no
    generation, no history write).  The handlers of [app.py] and
    [sampleapp.py] answer with status 400 and a body whose only
    field is [error]; the handlers of [test2.py] and [test3.py]
    answer with status 200 and the summary [Please enter a query.],
    without an [error] field. *)
Theorem chat_without_message (w : world) (request_form : form) :
  form_get request_form (py "msg") = None
  \/ form_get request_form (py "msg") = Some [] ->
  let refusal :=
    {| status := 400;
       content := JsonBody
         (JDict [(py "error", JStr (py "No message provided"))]) |} in
  serve (App.chat w request_form) = ([], refusal)
  /\ serve (SampleApp.chat w request_form) = ([], refusal)
  /\ serve (Test2.chat w request_form)
     = ([], {| status := 200;
               content := JsonBody
                 (JDict [ (py "summary", JStr (py "Please enter a query."));
                          (py "structured_output", JDict []) ]) |})
  /\ serve (Test3.chat w request_form)
     = ([], {| status := 200;
               content := JsonBody
                 (JDict [ (py "summary", JStr (py "Please enter a query."));
                          (py "validated_output", JDict []);
                          (py "elasticsearch_query", JDict []) ]) |}).
Proof.
  intros H refusal. subst refusal.
  unfold SampleApp.chat, App.chat, Test2.chat, Test3.chat.
  destruct H as [-> | ->]; repeat split.
Qed.

Lemma chat_without_message_witness :
  serve (App.chat Samples.offline []) 
  = ([], {| status := 400;
            content := JsonBody
              (JDict [(py "error", JStr (py "No message provided"))]) |})
  /\ serve (Test3.chat Samples.offline [(py "msg", [])])
     = ([], {| status := 200;
               content := JsonBody
                 (JDict [ (py "summary", JStr (py "Please enter a query."));
                          (py "validated_output", JDict []);
                          (py "elasticsearch_query", JDict []) ]) |}).
Proof.
  split.
  - exact (proj1 (chat_without_message Samples.offline []
                    (or_introl eq_refl))).
  - exact (proj2 (proj2 (proj2
            (chat_without_message Samples.offline [(py "msg", [])]
               (or_intror eq_refl))))).
Defined.

(** Claim C3 as stated fails on [test2.py] and [test3.py]: without a
    [msg] field their handlers answer with status 200 and no [error]
    field. *)
Lemma chat_without_message_counterexample :
  form_get [] (py "msg") = None
  /\ (exists body,
        serve (Test2.chat Samples.offline [])
        = ([], {| status := 200; content := JsonBody body |})
        /\ field body "error" = None)
  /\ (exists body,
        serve (Test3.chat Samples.offline [])
        = ([], {| status := 200; content := JsonBody body |})
        /\ field body "error" = None)
  /\ 200 <> 400.
Proof.
  split; [reflexivity|].
  split; [eexists; split; reflexivity|].
  split; [eexists; split; reflexivity|].
  discriminate.
Qed.






(** The same run, computed: the model's [{"kept": []}] does not reach
    the response. *)
Example validated_output_run :
  serve (Test3.chat
           (Samples.answering Samples.model_text [] Samples.sample_matches)
           Samples.hello_form)
  = ([IndexQuery (py "hello");
      LlmInvoke (py "hello") Samples.sample_structured_output],
     {| status := 200;
        content := JsonBody
          (JDict [ (py "summary", JStr (py "ok"));
                   (py "validated_output", Samples.sample_structured_output);
                   (py "elasticsearch_query", JDict []) ]) |})
  /\ json_loads Samples.cpython (Test3.cleaned Samples.model_text)
     = Loaded (JDict [ (py "summary", JStr (py "ok"));
                       (py "validated_output",
                        JDict [(py "kept", JList [])]) ]).
Proof. split; reflexivity. Qed.

(** ** The [/history] handler *)

Lemma str_leb_refl (a : str) : str_leb a a = true.
Proof.
  induction a as [|x a IH]; simpl; [reflexivity|].
  rewrite N.eqb_refl, IH. apply orb_true_r.
Qed.

Lemma str_leb_total (a b : str) : str_leb a b = false -> str_leb b a = true.
Proof.
  revert b; induction a as [|x a IH]; intros [|y b]; simpl;
    try discriminate; try reflexivity.
  intros H. apply orb_false_iff in H as [Hlt H].
  apply N.ltb_ge in Hlt.
  destruct (N.eqb_spec x y) as [->|Hne].
  - simpl in H. rewrite N.eqb_refl, (IH _ H). apply orb_true_r.
  - assert (L : (y <? x)%N = true) by (apply N.ltb_lt; lia).
    rewrite L; reflexivity.
Qed.

Lemma str_leb_trans (a b c : str) :
  str_leb a b = true -> str_leb b c = true -> str_leb a c = true.
Proof.
  revert b c; induction a as [|x a IH]; intros [|y b] [|z c]; simpl;
    try discriminate; try reflexivity.
  intros H1 H2.
  apply orb_true_iff in H1 as [H1|H1]; apply orb_true_iff in H2 as [H2|H2].
  - apply N.ltb_lt in H1, H2.
    assert (L : (x <? z)%N = true) by (apply N.ltb_lt; lia).
    rewrite L; reflexivity.
  - apply andb_true_iff in H2 as [E _]. apply N.eqb_eq in E; subst.
    rewrite H1; reflexivity.
  - apply andb_true_iff in H1 as [E _]. apply N.eqb_eq in E; subst.
    rewrite H2; reflexivity.
  - apply andb_true_iff in H1 as [E1 L1]. apply andb_true_iff in H2 as [E2 L2].
    apply N.eqb_eq in E1, E2; subst.
    rewrite N.eqb_refl, (IH _ _ L1 L2). apply orb_true_r.
Qed.

Section NewestFirst.

Import Store.

Lemma insert_desc_perm (x : ChatEntry) (l : list ChatEntry) :
  Permutation (insert_desc x l) (x :: l).
Proof.
  induction l as [|y l IH]; simpl; [apply Permutation_refl|].
  destruct (str_leb (timestamp y) (timestamp x)).
  - apply Permutation_refl.
  - eapply Permutation_trans; [apply perm_skip, IH | apply perm_swap].
Qed.

Lemma sort_desc_perm (l : list ChatEntry) : Permutation (sort_desc l) l.
Proof.
  induction l as [|x l IH]; simpl; [apply perm_nil|].
  eapply Permutation_trans; [apply insert_desc_perm | apply perm_skip, IH].
Qed.

Lemma insert_desc_sorted (x : ChatEntry) (l : list ChatEntry) :
  StronglySorted not_older l -> StronglySorted not_older (insert_desc x l).
Proof.
  induction l as [|y l IH]; simpl; intros S.
  - constructor; constructor.
  - inversion S as [|? ? Sl Fl]; subst.
    destruct (str_leb (timestamp y) (timestamp x)) eqn:E.
    + constructor; [exact S|].
      constructor; [exact E|].
      apply Forall_forall. intros z Hz.
      rewrite Forall_forall in Fl. specialize (Fl z Hz).
      unfold not_older in *. eapply str_leb_trans; eassumption.
    + constructor; [apply IH, Sl|].
      apply Forall_forall. intros z Hz.
      apply (Permutation_in _ (insert_desc_perm x l)) in Hz.
      destruct Hz as [<-|Hz].
      * apply str_leb_total, E.
      * rewrite Forall_forall in Fl; apply Fl, Hz.
Qed.

Lemma sort_desc_sorted (l : list ChatEntry) :
  StronglySorted not_older (sort_desc l).
Proof.
  induction l as [|x l IH]; simpl; [constructor|].
  apply insert_desc_sorted, IH.
Qed.

Lemma firstn_sorted (n : nat) (l : list ChatEntry) :
  StronglySorted not_older l -> StronglySorted not_older (firstn n l).
Proof.
  revert l; induction n as [|n IH]; intros [|x l] S; simpl;
    try constructor.
  - inversion S; subst. apply IH; assumption.
  - inversion S as [|? ? _ F]; subst.
    apply Forall_forall. intros z Hz.
    rewrite Forall_forall in F. apply F.
    rewrite <- (firstn_skipn n l). apply in_or_app; left; exact Hz.
Qed.

End NewestFirst.

Lemma sorted_app_order (l1 l2 : list Store.ChatEntry) :
  StronglySorted Store.not_older (l1 ++ l2) ->
  forall a b, In a l1 -> In b l2 -> Store.not_older a b.
Proof.
  induction l1 as [|x l1 IH]; simpl; intros S a b Ha Hb; [destruct Ha|].
  inversion S as [|? ? S' F]; subst.
  destruct Ha as [<-|Ha].
  - rewrite Forall_forall in F. apply F, in_or_app; right; exact Hb.
  - apply IH; assumption.
Qed.

(** The documents the query returns serialise to the entries as
    listed: the projection has removed the identifier. *)
Lemma documents_json_recent (n : nat) (entries : list Store.ChatEntry) :
  App.documents_json (Store.find_recent n entries)
  = ret (List.map App.shown (firstn n (Store.sort_desc entries))).
Proof.
  unfold Store.find_recent.
  induction (firstn n (Store.sort_desc entries)) as [|e l IH];
    [reflexivity|].
  cbn [List.map App.documents_json]. rewrite IH. reflexivity.
Qed.

(** Without the projection the identifier stops the serialisation. *)
Lemma document_json_with_id (e : Store.ChatEntry) :
  App.document_json (Store.stored e) = raise TypeError.
Proof. reflexivity. Qed.

(** Claim C5.  When the history collection can be read, [/history] of
    [app.py] and [sampleapp.py] answers with status 200 and a JSON
    array: the first ten entries of the collection sorted by
    descending timestamp, so at most ten, newest first, each without
    an [_id] field, and no entry left out is newer than one listed.
    When the read raises, it answers with status 500 and a body whose
    field [error] is the exception's text. *)
Theorem history_lists_ten_newest (w : world) :
  SampleApp.history w = App.history w
  /\ match collection w with
     | inr entries =>
         let sorted := Store.sort_desc entries in
         let newest := firstn 10 sorted in
         serve (App.history w)
         = ([FindRecent],
            {| status := 200;
               content := JsonBody (JList (List.map App.shown newest)) |})
         /\ List.length (List.map App.shown newest) <= 10
         /\ Permutation sorted entries
         /\ StronglySorted Store.not_older newest
         /\ (forall a b, In a newest -> In b (skipn 10 sorted) ->
                         Store.not_older a b)
         /\ Forall (fun chat =>
                      field chat "_id" = None
                      /\ exists e, In e entries
                                   /\ chat = App.shown e
                                   /\ field chat "timestamp"
                                      = Some (JStr (Store.timestamp e)))
                   (List.map App.shown newest)
     | inl e =>
         serve (App.history w)
         = ([FindRecent],
            {| status := 500;
               content := JsonBody
                 (JDict [(py "error", JStr (str_exn w e))]) |})
     end.
Proof.
  split; [reflexivity|].
  unfold App.history, call.
  destruct (collection w) as [e|entries].
  - reflexivity.
  - cbv zeta. split; [|split; [|split; [|split; [|split]]]].
    + cbv beta iota zeta delta [bind try_except].
      rewrite documents_json_recent. reflexivity.
    + rewrite length_map. apply firstn_le_length.
    + apply sort_desc_perm.
    + apply firstn_sorted, sort_desc_sorted.
    + apply sorted_app_order. rewrite firstn_skipn. apply sort_desc_sorted.
    + apply Forall_forall. intros chat Hc.
      apply in_map_iff in Hc as (e & <- & He).
      split; [reflexivity|].
      exists e. split; [|split; reflexivity].
      apply (Permutation_in _ (sort_desc_perm entries)).
      rewrite <- (firstn_skipn 10 (Store.sort_desc entries)).
      apply in_or_app; left; exact He.
Qed.

Lemma history_lists_ten_newest_witness :
  serve (App.history (Samples.answering [] Samples.three_entries []))
  = ([FindRecent],
     {| status := 200;
        content := JsonBody
          (JList [ App.shown (Samples.entry "a2" "2025-03-01 09:30:00");
                   App.shown (Samples.entry "a3" "2025-02-01 23:59:59");
                   App.shown (Samples.entry "a1" "2025-01-01 10:00:00") ]) |})
  /\ serve (App.history Samples.offline)
     = ([FindRecent],
        {| status := 500;
           content := JsonBody
             (JDict [(py "error", JStr (py "store offline"))]) |}).
Proof.
  split.
  - exact (proj1 (proj2 (history_lists_ten_newest
                           (Samples.answering [] Samples.three_entries [])))).
  - exact (proj2 (history_lists_ten_newest Samples.offline)).
Defined.

(** ** The document loader *)

Section Loader.

Import Helper.

(** The loop body never raises: it appends what the entry contributes. *)
Lemma load_file_appends (lim : limits) (documents : list Document)
    (f : file) :
  load_file lim documents f = ret (documents ++ records_of_file lim f).
Proof.
  unfold load_file, records_of_file.
  destruct (endswith (file_name f) (py ".json")); simpl;
    [|rewrite app_nil_r; reflexivity].
  unfold json_load, loads.
  destruct (file_text f) as [content|]; simpl;
    [|rewrite app_nil_r; reflexivity].
  destruct (json_loads lim content); simpl;
    try (rewrite app_nil_r); reflexivity.
Qed.

Lemma load_from_appends (lim : limits) (folder : list file) :
  forall documents,
    load_from lim documents folder
    = ret (documents ++ flat_map (records_of_file lim) folder).
Proof.
  induction folder as [|f rest IH]; intros documents; simpl.
  - rewrite app_nil_r; reflexivity.
  - rewrite load_file_appends. unfold bind, ret.
    rewrite IH. unfold ret. rewrite <- app_assoc. reflexivity.
Qed.

Lemma load_json_files_flat (lim : limits) (folder : list file) :
  load_json_files lim folder = ret (flat_map (records_of_file lim) folder).
Proof. unfold load_json_files. rewrite load_from_appends. reflexivity. Qed.

(** The object branch is the specification's: one Record per kept key. *)
Lemma object_documents_kept (name : str) (d : pydict) :
  object_documents name d = records_of_object name d.
Proof.
  unfold object_documents, records_of_object.
  induction d as [|[key value] d IH]; simpl; [reflexivity|].
  unfold kept at 1. simpl.
  destruct value as [ | | | |text| | ]; simpl; try exact IH.
  destruct (nonempty (strip text)); simpl; [rewrite IH|];
    reflexivity || exact IH.
Qed.

Lemma nonempty_true (s : str) : nonempty s = true <-> s <> [].
Proof. destruct s; simpl; split; congruence. Qed.

Lemma In_enumerate {A : Type} (l : list A) :
  forall (i j : Z) (x : A), In (j, x) (enumerate_from i l) -> In x l.
Proof.
  induction l as [|y l IH]; simpl; intros i j x H; [exact H|].
  destruct H as [H|H]; [inversion H; auto | right; eapply IH; exact H].
Qed.

Lemma keyed_documents_texts (mk : str -> str -> Document) (d : pydict)
    (doc : Document) :
  (forall key value, page_content (mk key value) = strip value) ->
  In doc (flat_map
            (fun kv =>
               match snd kv with
               | JStr value =>
                   if nonempty (strip value) then [mk (fst kv) value] else []
               | _ => []
               end) d) ->
  exists key value,
    In (key, JStr value) d
    /\ page_content doc = strip value /\ strip value <> [].
Proof.
  intros Hmk H. apply in_flat_map in H as ([key v] & Hin & H).
  simpl in H. destruct v as [ | | | |text| | ]; try (destruct H).
  destruct (nonempty (strip text)) eqn:E; [|destruct H].
  destruct H as [<-|[]]. exists key, text.
  split; [exact Hin|]. split; [apply Hmk | apply nonempty_true, E].
Qed.

(** Every Record of a parsed file is the stripped form of a string the
    file holds, and is not empty. *)
Lemma file_documents_texts (name : str) (json_data : json) (doc : Document) :
  In doc (file_documents name json_data) ->
  exists value,
    string_in value json_data
    /\ page_content doc = strip value /\ strip value <> [].
Proof.
  destruct json_data as [ | | | | |records|object]; simpl; try (intros []).
  - (* a list *)
    intros H. apply in_flat_map in H as ([i record] & Hin & H).
    apply In_enumerate in Hin. simpl in H.
    destruct record as [ | | | |text|items|fields]; try (destruct H).
    + destruct (nonempty (strip text)) eqn:E; [|destruct H].
      destruct H as [<-|[]]. exists text.
      split; [exists (JStr text); split; [exact Hin | left; reflexivity]|].
      split; [reflexivity | apply nonempty_true, E].
    + unfold record_documents in H.
      apply (keyed_documents_texts
               (fun key value =>
                  {| page_content := strip value;
                     metadata := [ (py "source", JStr name);
                                   (py "key", JStr key);
                                   (py "index", JInt i) ] |}))
        in H; [|reflexivity].
      destruct H as (key & value & Hk & Hp & Hn). exists value.
      split; [|split; assumption].
      exists (JDict fields). split; [exact Hin|].
      right. exists fields, key. split; [reflexivity | exact Hk].
  - (* an object *)
    intros H. unfold object_documents in H.
    apply (keyed_documents_texts
             (fun key value =>
                {| page_content := strip value;
                   metadata := [ (py "source", JStr name);
                                 (py "key", JStr key) ] |}))
      in H; [|reflexivity].
    destruct H as (key & value & Hk & Hp & Hn). exists value.
    split; [exists key; exact Hk | split; assumption].
Qed.

Lemma enumerate_nth_In {A : Type} (l : list A) :
  forall (k : Z) (n : nat) (x : A),
    nth_error l n = Some x ->
    In ((k + Z.of_nat n)%Z, x) (enumerate_from k l).
Proof.
  induction l as [|y l IH]; intros k n x H; destruct n as [|n];
    simpl in H; try discriminate H.
  - inversion H; subst. left. f_equal. lia.
  - right. replace (k + Z.of_nat (S n))%Z with ((k + 1) + Z.of_nat n)%Z
      by lia.
    apply IH; exact H.
Qed.

(** Every string of a parsed file that is not empty once stripped has
    its Record. *)
Lemma object_documents_complete (name : str) (d : pydict)
    (key value : str) :
  In (key, JStr value) d -> strip value <> [] ->
  In {| page_content := strip value;
        metadata := [ (py "source", JStr name); (py "key", JStr key) ] |}
     (object_documents name d).
Proof.
  intros Hin Hs. unfold object_documents. apply in_flat_map.
  exists (key, JStr value). split; [exact Hin|]. simpl.
  apply nonempty_true in Hs. rewrite Hs. left; reflexivity.
Qed.

Lemma list_documents_complete (name : str) (records : list json)
    (i : nat) (value : str) :
  strip value <> [] ->
  (nth_error records i = Some (JStr value) ->
   In {| page_content := strip value;
         metadata := [ (py "source", JStr name);
                       (py "index", JInt (Z.of_nat i)) ] |}
      (file_documents name (JList records)))
  /\ (forall d key,
        nth_error records i = Some (JDict d) ->
        In (key, JStr value) d ->
        In {| page_content := strip value;
              metadata := [ (py "source", JStr name);
                            (py "key", JStr key);
                            (py "index", JInt (Z.of_nat i)) ] |}
           (file_documents name (JList records))).
Proof.
  intros Hs. apply nonempty_true in Hs. split.
  - intros Hn. simpl. apply in_flat_map.
    exists (Z.of_nat i, JStr value). split.
    + apply (enumerate_nth_In records 0 i _ Hn).
    + simpl. rewrite Hs. left; reflexivity.
  - intros d key Hn Hin. simpl. apply in_flat_map.
    exists (Z.of_nat i, JDict d). split.
    + apply (enumerate_nth_In records 0 i _ Hn).
    + simpl. unfold record_documents. apply in_flat_map.
      exists (key, JStr value). split; [exact Hin|]. simpl.
      rewrite Hs. left; reflexivity.
Qed.

End Loader.

(** Claim C6, as amended.  A [.json] file whose content [json.load]
    loads as a top-level object yields one Record per key whose value
    is a string that is not empty once stripped: the stripped string,
    tagged with the file name and that key.  The other keys (values
    that are not strings, strings that strip to nothing) yield
    nothing, so the Records are as many as the kept keys.  In
    particular the one-file folder with [{"a": "x", "b": ""}] yields
    exactly one Record, for [a]. *)
Theorem object_file_records :
  (forall (lim : limits) (name content : str) (d : pydict),
      endswith name (py ".json") = true ->
      json_loads lim content = Loaded (JDict d) ->
      Helper.load_json_files lim
        [ {| Helper.file_name := name; Helper.file_text := Some content |} ]
      = ret (Helper.records_of_object name d)
      /\ List.length (Helper.records_of_object name d)
         = List.length (filter Helper.kept d)
      /\ (forall key value,
            In (key, JStr value) d -> strip value <> [] ->
            In {| Helper.page_content := strip value;
                  Helper.metadata := [ (py "source", JStr name);
                                       (py "key", JStr key) ] |}
               (Helper.records_of_object name d))
      /\ (forall doc,
            In doc (Helper.records_of_object name d) ->
            exists key value,
              In (key, JStr value) d /\ strip value <> []
              /\ doc = {| Helper.page_content := strip value;
                          Helper.metadata := [ (py "source", JStr name);
                                               (py "key", JStr key) ] |}))
  /\ (forall lim : limits,
        Helper.load_json_files lim [Samples.ab_file]
        = ret [ {| Helper.page_content := py "x";
                   Helper.metadata :=
                     [ (py "source", JStr (py "data.json"));
                       (py "key", JStr (py "a")) ] |} ]).
Proof.
  split; [|intros lim; reflexivity].
  intros lim name content d Hn Hl.
  split; [|split; [|split]].
  - rewrite load_json_files_flat. simpl.
    unfold Helper.records_of_file. simpl. rewrite Hn, Hl. simpl.
    rewrite app_nil_r, object_documents_kept. reflexivity.
  - unfold Helper.records_of_object. apply length_map.
  - intros key value Hin Hs. unfold Helper.records_of_object.
    apply in_map_iff. exists (key, JStr value). split; [reflexivity|].
    apply filter_In. split; [exact Hin|].
    unfold Helper.kept. simpl. apply nonempty_true, Hs.
  - intros doc Hin. unfold Helper.records_of_object in Hin.
    apply in_map_iff in Hin as ([key v] & <- & Hin).
    apply filter_In in Hin as [Hin Hk].
    unfold Helper.kept in Hk. simpl in Hk.
    destruct v as [ | | | |value| | ]; try discriminate Hk.
    exists key, value. split; [exact Hin|].
    split; [apply nonempty_true, Hk | reflexivity].
Qed.

Lemma object_file_records_witness :
  Helper.load_json_files Samples.cpython [Samples.ab_file]
  = ret (Helper.records_of_object (py "data.json")
           [ (py "a", JStr (py "x")); (py "b", JStr []) ])
  /\ List.length (Helper.records_of_object (py "data.json")
                    [ (py "a", JStr (py "x")); (py "b", JStr []) ]) = 1.
Proof.
  destruct (proj1 object_file_records Samples.cpython (py "data.json")
              (py "{" ++ quoted "a" ++ py ": " ++ quoted "x" ++ py ", "
               ++ quoted "b" ++ py ": " ++ [dquote; dquote] ++ py "}")
              [ (py "a", JStr (py "x")); (py "b", JStr []) ]
              eq_refl eq_refl) as (Hload & Hlen & _).
  split; [exact Hload | exact Hlen].
Defined.

(** Claim C6 as stated fails on a file that is a JSON object but that
    [json.load] does not load: with an integer of 4301 digits beside
    ["a": "x"], [int] raises [ValueError], the loader's [except] drops
    the file, and no Record is produced for [a]. *)
Lemma object_file_not_loaded_counterexample :
  endswith (Helper.file_name Samples.long_file) (py ".json") = true
  /\ (exists content,
        Helper.file_text Samples.long_file = Some content
        /\ json_loads Samples.cpython content = DigitsError)
  /\ Helper.load_json_files Samples.cpython [Samples.long_file] = ret [].
Proof.
  split; [reflexivity|]. split.
  - eexists. split; [reflexivity|]. vm_compute; reflexivity.
  - vm_compute; reflexivity.
Qed.

(** Claim C7.  A file of malformed JSON yields no Record and does not
    stop the loader: for every folder the loader returns, and with
    such a file anywhere in the folder the result is the Records of
    the files before it followed by the Records of the files after
    it.  Those Records are there: every string of a remaining [.json]
    file that loads, as a value of a top-level object, as an item of a
    top-level list or as a value of an object in such a list, and that
    is not empty once stripped, has its Record in the result. *)
Theorem malformed_file_is_skipped
    (lim : limits) (before after : list Helper.file) (name content : str) :
  json_loads lim content = DecodeError ->
  let bad := {| Helper.file_name := name;
                Helper.file_text := Some content |} in
  Helper.load_json_files lim [bad] = ret []
  /\ exists documents_before documents_after,
       Helper.load_json_files lim before = ret documents_before
       /\ Helper.load_json_files lim after = ret documents_after
       /\ Helper.load_json_files lim (before ++ bad :: after)
          = ret (documents_before ++ documents_after)
       /\ (forall f text json_data value,
             In f (before ++ after) ->
             endswith (Helper.file_name f) (py ".json") = true ->
             Helper.file_text f = Some text ->
             json_loads lim text = Loaded json_data ->
             strip value <> [] ->
             (forall d key,
                 json_data = JDict d -> In (key, JStr value) d ->
                 In {| Helper.page_content := strip value;
                       Helper.metadata :=
                         [ (py "source", JStr (Helper.file_name f));
                           (py "key", JStr key) ] |}
                    (documents_before ++ documents_after))
             /\ (forall records i,
                   json_data = JList records ->
                   nth_error records i = Some (JStr value) ->
                   In {| Helper.page_content := strip value;
                         Helper.metadata :=
                           [ (py "source", JStr (Helper.file_name f));
                             (py "index", JInt (Z.of_nat i)) ] |}
                      (documents_before ++ documents_after))
             /\ (forall records i d key,
                   json_data = JList records ->
                   nth_error records i = Some (JDict d) ->
                   In (key, JStr value) d ->
                   In {| Helper.page_content := strip value;
                         Helper.metadata :=
                           [ (py "source", JStr (Helper.file_name f));
                             (py "key", JStr key);
                             (py "index", JInt (Z.of_nat i)) ] |}
                      (documents_before ++ documents_after))).
Proof.
  intros Hj bad.
  assert (Hb : Helper.records_of_file lim bad = []).
  { unfold Helper.records_of_file, bad. simpl. rewrite Hj.
    destruct (endswith name (py ".json")); reflexivity. }
  split.
  - rewrite load_json_files_flat. simpl. rewrite Hb. reflexivity.
  - exists (flat_map (Helper.records_of_file lim) before),
           (flat_map (Helper.records_of_file lim) after).
    rewrite !load_json_files_flat.
    split; [reflexivity|]. split; [reflexivity|]. split.
    { rewrite flat_map_app. simpl. rewrite Hb. reflexivity. }
    intros f text json_data value Hin Hn Ht Hl Hs.
    rewrite <- flat_map_app.
    assert (K : forall doc,
               In doc (Helper.file_documents (Helper.file_name f) json_data) ->
               In doc (flat_map (Helper.records_of_file lim)
                         (before ++ after))).
    { intros doc Hd. apply in_flat_map. exists f. split; [exact Hin|].
      unfold Helper.records_of_file. rewrite Hn, Ht, Hl. exact Hd. }
    split; [|split].
    + intros d key -> Hk. apply K. simpl.
      apply object_documents_complete; assumption.
    + intros records i -> Hi. apply K.
      apply (proj1 (list_documents_complete (Helper.file_name f) records
                      i value Hs) Hi).
    + intros records i d key -> Hi Hk. apply K.
      apply (proj2 (list_documents_complete (Helper.file_name f) records
                      i value Hs) d key Hi Hk).
Qed.

(** The folder [data.json], [broken.json], [company_type.json]: the
    Records of the two files that load, and none for the broken one. *)
Lemma malformed_file_is_skipped_witness :
  Helper.load_json_files Samples.cpython [Samples.bad_file] = ret []
  /\ Helper.load_json_files Samples.cpython
       ([Samples.ab_file] ++ Samples.bad_file :: [Samples.list_file])
     = ret [ {| Helper.page_content := py "x";
                Helper.metadata := [ (py "source", JStr (py "data.json"));
                                     (py "key", JStr (py "a")) ] |};
             {| Helper.page_content := py "Private";
                Helper.metadata :=
                  [ (py "source", JStr (py "company_type.json"));
                    (py "key", JStr (py "company_type"));
                    (py "index", JInt 0) ] |};
             {| Helper.page_content := py "Ltd";
                Helper.metadata :=
                  [ (py "source", JStr (py "company_type.json"));
                    (py "index", JInt 2) ] |} ]
  /\ In {| Helper.page_content := py "Ltd";
           Helper.metadata :=
             [ (py "source", JStr (py "company_type.json"));
               (py "index", JInt 2) ] |}
        ([ {| Helper.page_content := py "x";
              Helper.metadata := [ (py "source", JStr (py "data.json"));
                                   (py "key", JStr (py "a")) ] |} ]
         ++ [ {| Helper.page_content := py "Private";
                 Helper.metadata :=
                   [ (py "source", JStr (py "company_type.json"));
                     (py "key", JStr (py "company_type"));
                     (py "index", JInt 0) ] |};
              {| Helper.page_content := py "Ltd";
                 Helper.metadata :=
                   [ (py "source", JStr (py "company_type.json"));
                     (py "index", JInt 2) ] |} ]).
Proof.
  destruct (malformed_file_is_skipped Samples.cpython
              [Samples.ab_file] [Samples.list_file]
              (py "broken.json") (py "{" ++ quoted "a" ++ py ": ") eq_refl)
    as (Hbad & before & after & Hb & Ha & Hall & Hin).
  injection Hb as <-. injection Ha as <-.
  split; [exact Hbad|]. split; [exact Hall|].
  exact (proj1 (proj2
           (Hin Samples.list_file
              (py "[{" ++ quoted "company_type" ++ py ": "
               ++ quoted " Private " ++ py "}, " ++ quoted "  " ++ py ", "
               ++ quoted "Ltd" ++ py ", 7]")
              (JList [ JDict [(py "company_type", JStr (py " Private "))];
                       JStr (py "  "); JStr (py "Ltd"); JInt 7 ])
              (py "Ltd")
              (or_intror (or_introl eq_refl)) eq_refl eq_refl eq_refl
              ltac:(discriminate)))
           [ JDict [(py "company_type", JStr (py " Private "))];
             JStr (py "  "); JStr (py "Ltd"); JInt 7 ]
           2 eq_refl eq_refl).
Defined.

(** The same folder, computed. *)
Example malformed_file_run :
  Helper.load_json_files Samples.cpython
    [Samples.ab_file; Samples.bad_file; Samples.list_file]
  = ret [ {| Helper.page_content := py "x";
             Helper.metadata := [ (py "source", JStr (py "data.json"));
                                  (py "key", JStr (py "a")) ] |};
          {| Helper.page_content := py "Private";
             Helper.metadata :=
               [ (py "source", JStr (py "company_type.json"));
                 (py "key", JStr (py "company_type"));
                 (py "index", JInt 0) ] |};
          {| Helper.page_content := py "Ltd";
             Helper.metadata :=
               [ (py "source", JStr (py "company_type.json"));
                 (py "index", JInt 2) ] |} ].
Proof.
  vm_compute; reflexivity.
Qed.

(** Claim C8.  For every folder the loader returns, and every Record
    it returns, from a list-shaped or an object-shaped file, has as
    text the stripped form of a string found in a file of the folder;
    that text is not empty and stripping it again changes nothing. *)
Theorem records_have_text (lim : limits) (folder : list Helper.file) :
  exists documents,
    Helper.load_json_files lim folder = ret documents
    /\ Forall
         (fun doc =>
            Helper.page_content doc <> []
            /\ strip (Helper.page_content doc) = Helper.page_content doc
            /\ exists f content json_data value,
                 In f folder
                 /\ Helper.file_text f = Some content
                 /\ json_loads lim content = Loaded json_data
                 /\ Helper.string_in value json_data
                 /\ Helper.page_content doc = strip value)
         documents.
Proof.
  exists (flat_map (Helper.records_of_file lim) folder).
  split; [apply load_json_files_flat|].
  apply Forall_forall. intros doc Hin.
  apply in_flat_map in Hin as (f & Hf & Hin).
  unfold Helper.records_of_file in Hin.
  destruct (endswith (Helper.file_name f) (py ".json")); [|destruct Hin].
  destruct (Helper.file_text f) as [content|] eqn:Et; [|destruct Hin].
  destruct (json_loads lim content) as [json_data| | | |] eqn:Ej;
    try (destruct Hin).
  apply file_documents_texts in Hin as (value & Hv & Hp & Hn).
  split; [rewrite Hp; exact Hn|].
  split; [rewrite Hp; apply strip_idem|].
  exists f, content, json_data, value. repeat split; assumption.
Qed.

Lemma records_have_text_witness :
  exists documents,
    Helper.load_json_files Samples.cpython
      [Samples.ab_file; Samples.bad_file; Samples.list_file]
    = ret documents
    /\ Forall
         (fun doc =>
            Helper.page_content doc <> []
            /\ strip (Helper.page_content doc) = Helper.page_content doc
            /\ exists f content json_data value,
                 In f [Samples.ab_file; Samples.bad_file; Samples.list_file]
                 /\ Helper.file_text f = Some content
                 /\ json_loads Samples.cpython content = Loaded json_data
                 /\ Helper.string_in value json_data
                 /\ Helper.page_content doc = strip value)
         documents.
Proof.
  exact (records_have_text Samples.cpython
           [Samples.ab_file; Samples.bad_file; Samples.list_file]).
Defined.

(* ================================================================== *)
(** * Further properties of the handlers and the loader *)
(* ================================================================== *)

(** ** [app.py]: [chat] and [history] *)

Lemma chat_chain_raises
    (w : world) (request_form : form) (msg : str) (e : exn) :
  form_get request_form (py "msg") = Some msg ->
  msg <> [] ->
  rag_chain_invoke w msg = inl e ->
  App.chat w request_form = ([RagChainInvoke msg], inl e).
Proof.
  intros Hf Hm Hc. unfold App.chat. rewrite Hf.
  destruct msg as [|c msg]; [contradiction|].
  unfold call, bind at 1. rewrite Hc. reflexivity.
Qed.

(** X1.  The chain call of [chat] is outside any [try]: when it raises,
    the exception escapes the handler (status 500) and nothing is
    written to the history. *)
Theorem chat_chain_failure_escapes
    (w : world) (request_form : form) (msg : str) (e : exn) :
  form_get request_form (py "msg") = Some msg ->
  msg <> [] ->
  rag_chain_invoke w msg = inl e ->
  App.chat w request_form = ([RagChainInvoke msg], inl e)
  /\ serve (App.chat w request_form)
     = ([RagChainInvoke msg], {| status := 500; content := ErrorPage |}).
Proof.
  intros Hf Hm Hc.
  rewrite (chat_chain_raises w request_form msg e Hf Hm Hc).
  split; reflexivity.
Qed.

Lemma chat_chain_failure_escapes_witness :
  serve (App.chat Samples.offline Samples.hello_form)
  = ([RagChainInvoke (py "hello")],
     {| status := 500; content := ErrorPage |}).
Proof.
  exact (proj2 (chat_chain_failure_escapes Samples.offline Samples.hello_form
                  (py "hello") (Failure (py "chain offline"))
                  eq_refl ltac:(discriminate) eq_refl)).
Defined.



(** The three answers after the chain, computed: the write returns;
    the write raises with the driver's [ObjectId] left in the
    document; the extraction raises on an integer of 4301 digits. *)
Example chat_answers_run :
  serve (App.chat (Samples.answering Samples.info_text [] [])
           Samples.hello_form)
  = ([RagChainInvoke (py "hello");
      InsertOne (App.chat_entry (Samples.answering Samples.info_text [] [])
                   (py "hello") (py "Here is info")
                   (JDict [(py "industry", JStr (py "tech"))]))],
     App.chat_answer
       (App.chat_entry (Samples.answering Samples.info_text [] [])
          (py "hello") (py "Here is info")
          (JDict [(py "industry", JStr (py "tech"))]))
       (insert_one (Samples.answering Samples.info_text [] [])
          (App.chat_entry (Samples.answering Samples.info_text [] [])
             (py "hello") (py "Here is info")
             (JDict [(py "industry", JStr (py "tech"))]))))
  /\ snd (serve (App.chat
                   (Samples.store_down Samples.info_text
                      (Some (py "65a0dead")))
                   Samples.hello_form))
     = {| status := 500; content := ErrorPage |}
  /\ snd (serve (App.chat (Samples.store_down Samples.info_text None)
                   Samples.hello_form))
     = {| status := 200;
          content := JsonBody
            (JDict (App.chat_entry
                      (Samples.store_down Samples.info_text None)
                      (py "hello") (py "Here is info")
                      (JDict [(py "industry", JStr (py "tech"))]))) |}
  /\ serve (App.chat (Samples.answering Samples.long_text [] [])
              Samples.hello_form)
     = ([RagChainInvoke (py "hello")],
        {| status := 500; content := ErrorPage |}).
Proof. repeat split; vm_compute; reflexivity. Qed.

(** X3.  A message of white space only is a message for [app.py]: the
    chain is called with it, unstripped.  [test2.py] and [test3.py]
    strip the message first and answer [Please enter a query.] without
    any call. *)
Theorem blank_message_is_sent_on
    (w : world) (request_form : form) (msg : str) :
  form_get request_form (py "msg") = Some msg ->
  msg <> [] ->
  strip msg = [] ->
  (exists calls reply,
     serve (App.chat w request_form) = (RagChainInvoke msg :: calls, reply))
  /\ serve (Test2.chat w request_form)
     = ([], jsonify (JDict [ (py "summary", JStr (py "Please enter a query."));
                             (py "structured_output", JDict []) ]))
  /\ serve (Test3.chat w request_form)
     = ([], Test3.empty_reply (py "Please enter a query.")).
Proof.
  intros Hf Hm Hs. split; [|split].
  - destruct (rag_chain_invoke w msg) as [e|answer] eqn:Hc.
    + rewrite (chat_chain_raises w request_form msg e Hf Hm Hc).
      do 2 eexists; reflexivity.
    + destruct (extract_outcome w
                  (match answer with Some a => a | None => [] end))
        as (human & _ & [[filters He]|[e He]]).
      * rewrite (chat_reply w request_form msg answer human filters
                   Hf Hm Hc He).
        do 2 eexists; reflexivity.
      * rewrite (chat_extract_raises w request_form msg answer e
                   Hf Hm Hc He).
        do 2 eexists; reflexivity.
  - unfold Test2.chat. rewrite Hf, Hs. reflexivity.
  - unfold Test3.chat. rewrite Hf, Hs. reflexivity.
Qed.

Lemma blank_message_is_sent_on_witness :
  (exists calls reply,
     serve (App.chat Samples.offline Samples.blank_form)
     = (RagChainInvoke (py "  ") :: calls, reply))
  /\ serve (Test2.chat Samples.offline Samples.blank_form)
     = ([], jsonify (JDict [ (py "summary", JStr (py "Please enter a query."));
                             (py "structured_output", JDict []) ]))
  /\ serve (Test3.chat Samples.offline Samples.blank_form)
     = ([], Test3.empty_reply (py "Please enter a query.")).
Proof.
  exact (blank_message_is_sent_on Samples.offline Samples.blank_form
           (py "  ") eq_refl ltac:(discriminate) eq_refl).
Defined.

(** X4.  The human text is a fixed point of the extraction: extracting
    again from it gives it back, with the empty object as filters. *)
Theorem extract_human_again
    (w : world) (raw human : str) (filters : json) :
  App.extract w raw = ret (human, filters) ->
  App.extract w human = ret (human, JDict []).
Proof.
  intros H.
  destruct (split_answer_returns raw) as (human' & json_part & Hs & Hb & _).
  destruct (parse_filters_quiet w json_part) as [[filters' Hp]|[e Hp]].
  - rewrite (extract_of_split _ _ _ _ _ Hs Hp) in H.
    inversion H; subst.
    apply extract_of_split with (json_part := py "{}");
      [apply split_answer_absent; exact Hb | reflexivity].
  - rewrite (extract_raises_of_split _ _ _ _ _ Hs Hp) in H.
    discriminate H.
Qed.

Lemma extract_human_again_witness :
  App.extract Samples.offline (py "Here is info")
  = ret (py "Here is info", JDict []).
Proof.
  exact (extract_human_again Samples.offline Samples.info_text
           (py "Here is info")
           (JDict [(py "industry", JStr (py "tech"))]) eq_refl).
Defined.

(** X5.  [/history] lists exactly the smaller of ten and the number of
    stored entries: all of them up to ten, ten beyond. *)
Theorem history_count (w : world) (entries : list Store.ChatEntry) :
  collection w = inr entries ->
  exists chats,
    serve (App.history w)
    = ([FindRecent], {| status := 200; content := JsonBody (JList chats) |})
    /\ List.length chats = Nat.min 10 (List.length entries).
Proof.
  intros Hc.
  exists (List.map App.shown (firstn 10 (Store.sort_desc entries))).
  split.
  - unfold App.history, call. rewrite Hc.
    cbv beta iota zeta delta [bind try_except].
    rewrite documents_json_recent. reflexivity.
  - rewrite length_map, length_firstn.
    rewrite (Permutation_length (sort_desc_perm entries)). reflexivity.
Qed.

Lemma history_count_witness :
  exists chats,
    serve (App.history (Samples.answering [] Samples.three_entries []))
    = ([FindRecent], {| status := 200; content := JsonBody (JList chats) |})
    /\ List.length chats = 3.
Proof.
  exact (history_count (Samples.answering [] Samples.three_entries [])
           Samples.three_entries eq_refl).
Defined.

(** ** [test2.py] and [test3.py]: [chat] *)


(** X6.  In [test2.py] the index query is outside any [try]: when it
    raises, the exception escapes the handler (status 500) and the
    model is not called. *)
Theorem test2_index_failure_escapes
    (w : world) (request_form : form) (msg query : str) (e : exn) :
  form_get request_form (py "msg") = Some msg ->
  strip msg = query -> query <> [] ->
  index_query w query = inl e ->
  Test2.chat w request_form = ([IndexQuery query], inl e)
  /\ serve (Test2.chat w request_form)
     = ([IndexQuery query], {| status := 500; content := ErrorPage |}).
Proof.
  intros Hf Hs Hq Hi. unfold Test2.chat. rewrite Hf, Hs.
  destruct query as [|c q]; [contradiction|].
  unfold call, bind at 1. rewrite Hi. split; reflexivity.
Qed.

Lemma test2_index_failure_escapes_witness :
  serve (Test2.chat Samples.offline Samples.hello_form)
  = ([IndexQuery (py "hello")], {| status := 500; content := ErrorPage |}).
Proof.
  exact (proj2 (test2_index_failure_escapes Samples.offline
                  Samples.hello_form (py "hello") (py "hello")
                  (Failure (py "index offline"))
                  eq_refl eq_refl ltac:(discriminate) eq_refl)).
Defined.



(** X8.  In [test3.py] the index query is inside a [try]: when it
    raises, the handler answers with status 200, the summary
    [Error connecting to database: ] followed by the exception's text,
    and empty [validated_output] and [elasticsearch_query]; the model
    is not called. *)
Theorem test3_index_failure_degrades
    (w : world) (request_form : form) (msg query : str) (e : exn) :
  form_get request_form (py "msg") = Some msg ->
  strip msg = query -> query <> [] ->
  index_query w query = inl e ->
  serve (Test3.chat w request_form)
  = ([IndexQuery query],
     {| status := 200;
        content := JsonBody
          (JDict [ (py "summary",
                    JStr (py "Error connecting to database: "
                          ++ str_exn w e));
                   (py "validated_output", JDict []);
                   (py "elasticsearch_query", JDict []) ]) |}).
Proof.
  intros Hf Hs Hq Hi. unfold Test3.chat. rewrite Hf, Hs.
  destruct query as [|c q]; [contradiction|].
  unfold call. rewrite Hi. reflexivity.
Qed.

Lemma test3_index_failure_degrades_witness :
  serve (Test3.chat Samples.offline Samples.hello_form)
  = ([IndexQuery (py "hello")],
     {| status := 200;
        content := JsonBody
          (JDict [ (py "summary",
                    JStr (py "Error connecting to database: "
                          ++ py "index offline"));
                   (py "validated_output", JDict []);
                   (py "elasticsearch_query", JDict []) ]) |}).
Proof.
  exact (test3_index_failure_degrades Samples.offline Samples.hello_form
           (py "hello") (py "hello") (Failure (py "index offline"))
           eq_refl eq_refl ltac:(discriminate) eq_refl).
Defined.

(** ** [test3.py]: validation, repair and the cleaning of the reply *)

(** X9.  [validate_and_repair_json] returns the strict parse of a text
    that loads, without consulting the repair.  A text that
    [json.loads] refuses with an exception other than
    [JSONDecodeError] (the [ValueError] of an integer beyond the digit
    limit, the [RecursionError] of too deep a nesting) makes that
    exception escape as it is, again without consulting the repair.
    For a text that does not decode, the function returns the parse of
    the repaired text; and when repair raises or its output does not
    load, whatever the exception, it raises a [ValueError] whose text
    is [Failed to repair/parse JSON: ] followed by the text of that
    exception. *)
Theorem validate_and_repair_outcomes (w : world) (llm_output : str) :
  json_loads (json_limits w) llm_output <> Exhausted
  /\ Test3.validate_and_repair_json w llm_output
     = match json_loads (json_limits w) llm_output with
       | Loaded v => ret v
       | DigitsError => raise IntDigitsError
       | DepthError => raise RecursionError
       | _ =>
           match repair_json w llm_output with
           | inl e =>
               raise (ValueError (py "Failed to repair/parse JSON: "
                                  ++ str_exn w e))
           | inr repaired =>
               match json_loads (json_limits w) repaired with
               | Loaded v => ret v
               | DigitsError =>
                   raise (ValueError (py "Failed to repair/parse JSON: "
                                      ++ str_exn w IntDigitsError))
               | DepthError =>
                   raise (ValueError (py "Failed to repair/parse JSON: "
                                      ++ str_exn w RecursionError))
               | _ =>
                   raise (ValueError (py "Failed to repair/parse JSON: "
                                      ++ str_exn w JSONDecodeError))
               end
           end
       end.
Proof.
  split; [apply json_loads_total|].
  unfold Test3.validate_and_repair_json, loads, lift.
  destruct (json_loads (json_limits w) llm_output) eqn:E1;
    try reflexivity; [|destruct (json_loads_total _ _ E1)].
  cbv beta iota zeta delta [bind ret raise try_except any_exception
                            is_JSONDecodeError].
  destruct (repair_json w llm_output) as [e|repaired]; [reflexivity|].
  destruct (json_loads (json_limits w) repaired) eqn:E2;
    try reflexivity; destruct (json_loads_total _ _ E2).
Qed.

Lemma validate_and_repair_outcomes_witness :
  Test3.validate_and_repair_json
    (Samples.repairing Samples.broken_text Samples.fixed_text [])
    Samples.broken_text
  = ret (JDict [(py "summary", JStr (py "fixed"))])
  /\ Test3.validate_and_repair_json
       (Samples.unrepaired Samples.broken_text []) Samples.broken_text
     = raise (ValueError (py "Failed to repair/parse JSON: no repair"))
  /\ Test3.validate_and_repair_json
       (Samples.repairing Samples.broken_text Samples.fixed_text [])
       Samples.long_integer
     = raise IntDigitsError.
Proof.
  split; [|split].
  - exact (proj2 (validate_and_repair_outcomes
             (Samples.repairing Samples.broken_text Samples.fixed_text [])
             Samples.broken_text)).
  - exact (proj2 (validate_and_repair_outcomes
             (Samples.unrepaired Samples.broken_text [])
             Samples.broken_text)).
  - rewrite (proj2 (validate_and_repair_outcomes
               (Samples.repairing Samples.broken_text Samples.fixed_text [])
               Samples.long_integer)).
    vm_compute; reflexivity.
Defined.








(** *** Code fences *)

Lemma strip_prefix_app (p s : str) : strip_prefix p (p ++ s) = Some s.
Proof.
  induction p as [|x p IH]; simpl; [reflexivity|].
  rewrite N.eqb_refl. exact IH.
Qed.

Lemma startswith_app (p s : str) : startswith (p ++ s) p = true.
Proof. unfold startswith. rewrite strip_prefix_app. reflexivity. Qed.

Lemma startswith_head (c x : N) (p s : str) :
  x <> c -> startswith (x :: s) (c :: p) = false.
Proof.
  intros H. unfold startswith. simpl.
  destruct (N.eqb_spec c x) as [E|_]; [congruence | reflexivity].
Qed.

(** The rest of a matched occurrence is dropped. *)
Lemma remove_from_skip (pat p s : str) :
  remove_from pat (List.length p) (p ++ s) = remove_from pat 0 s.
Proof.
  induction p as [|x p IH]; simpl; [reflexivity | exact IH].
Qed.

Lemma remove_all_occurrence (c : N) (pat s : str) :
  remove_all (c :: pat) ((c :: pat) ++ s) = remove_all (c :: pat) s.
Proof.
  unfold remove_all.
  change (remove_from (c :: pat) 0 ((c :: pat) ++ s))
    with (if startswith ((c :: pat) ++ s) (c :: pat)
          then remove_from (c :: pat) (List.length pat) (pat ++ s)
          else c :: remove_from (c :: pat) 0 (pat ++ s)).
  rewrite startswith_app. apply remove_from_skip.
Qed.

(** Characters other than the first of the pattern are kept. *)
Lemma remove_all_keeps (c : N) (pat body tail : str) :
  contains c body = false ->
  remove_all (c :: pat) (body ++ tail)
  = body ++ remove_all (c :: pat) tail.
Proof.
  unfold remove_all, contains.
  induction body as [|x body IH]; simpl; [reflexivity|].
  intros H. apply orb_false_iff in H as [Hx Hb].
  apply N.eqb_neq in Hx.
  rewrite (startswith_head c x pat (body ++ tail) Hx).
  rewrite (IH Hb). reflexivity.
Qed.

(** X13.  A reply wrapped in a [```json] ... [```] fence is cleaned to
    its body, stripped, when the body has no backquote of its own. *)
Theorem cleaned_fenced_reply (raw body : str) :
  contains 96%N body = false ->
  strip raw = py "```json" ++ body ++ py "```" ->
  Test3.cleaned raw = strip body.
Proof.
  intros Hb H. unfold Test3.cleaned. rewrite H.
  change (py "```json") with (96%N :: py "``json").
  rewrite remove_all_occurrence.
  rewrite (remove_all_keeps 96 (py "``json") body (py "```") Hb).
  change (remove_all (96%N :: py "``json") (py "```")) with (py "```").
  change (py "```") with (96%N :: py "``").
  rewrite (remove_all_keeps 96 (py "``") body (96%N :: py "``") Hb).
  change (remove_all (96%N :: py "``") (96%N :: py "``")) with (@nil N).
  rewrite app_nil_r. reflexivity.
Qed.

Lemma cleaned_fenced_reply_witness :
  Test3.cleaned Samples.model_text
  = py "{" ++ quoted "summary" ++ py ": " ++ quoted "ok" ++ py ", "
    ++ quoted "validated_output" ++ py ": {" ++ quoted "kept" ++ py ": []}}".
Proof.
  exact (cleaned_fenced_reply Samples.model_text
           (py "{" ++ quoted "summary" ++ py ": " ++ quoted "ok" ++ py ", "
            ++ quoted "validated_output" ++ py ": {" ++ quoted "kept"
            ++ py ": []}}")
           eq_refl eq_refl).
Defined.

(** A string that starts with the pattern is the pattern and a rest. *)
Lemma startswith_split (p s : str) :
  startswith s p = true -> exists r, s = p ++ r.
Proof.
  unfold startswith. revert s; induction p as [|x p IH]; intros s H.
  - exists s; reflexivity.
  - destruct s as [|y s]; simpl in H; [discriminate|].
    destruct (N.eqb_spec x y) as [->|_]; [|discriminate].
    destruct (IH s H) as [r ->]. exists r; reflexivity.
Qed.

Lemma remove_all_kept_head (pat : str) (c : N) (s : str) :
  startswith (c :: s) pat = false ->
  remove_all pat (c :: s) = c :: remove_all pat s.
Proof. unfold remove_all. simpl. intros ->. reflexivity. Qed.

Lemma startswith_cons (c x : N) (p s : str) :
  startswith (x :: s) (c :: p) = (c =? x)%N && startswith s p.
Proof.
  unfold startswith. simpl. destruct (c =? x)%N; reflexivity.
Qed.

Lemma startswith_nil_l (c : N) (p : str) : startswith [] (c :: p) = false.
Proof. reflexivity. Qed.

(** After [replace("```", "")] a run of backquotes is shorter than the
    run it comes from and no fence is left. *)
Lemma no_fence_after_removal (s : str) :
  (startswith s [96%N] = false ->
   startswith (remove_all (py "```") s) [96%N] = false)
  /\ (startswith s [96%N; 96%N] = false ->
      startswith (remove_all (py "```") s) [96%N; 96%N] = false)
  /\ occurs (py "```") (remove_all (py "```") s) = false.
Proof.
  assert (G : forall n s, List.length s <= n ->
     (startswith s [96%N] = false ->
      startswith (remove_all (py "```") s) [96%N] = false)
     /\ (startswith s [96%N; 96%N] = false ->
         startswith (remove_all (py "```") s) [96%N; 96%N] = false)
     /\ occurs (py "```") (remove_all (py "```") s) = false).
  { clear s. induction n as [|n IH]; intros s L.
    - destruct s; [|simpl in L; lia]. repeat split.
    - destruct s as [|c s']; [repeat split|]. simpl in L.
      destruct (startswith (c :: s') (py "```")) eqn:E.
      + apply startswith_split in E as [r E]. rewrite E.
        change (py "```") with (96%N :: py "``").
        rewrite remove_all_occurrence.
        assert (Lr : List.length r <= n).
        { pose proof (f_equal (@List.length N) E) as EL.
          simpl in EL. lia. }
        destruct (IH r Lr) as (_ & _ & D).
        split; [intros H; discriminate H|].
        split; [intros H; discriminate H|].
        exact D.
      + rewrite (remove_all_kept_head _ _ _ E).
        assert (Ls : List.length s' <= n) by lia.
        destruct (IH s' Ls) as (A & B & D).
        change (py "```") with (96%N :: [96%N; 96%N]) in E.
        rewrite startswith_cons in E.
        split; [|split].
        * rewrite !startswith_cons. intros H.
          apply andb_false_iff in H as [H|H]; [|discriminate H].
          rewrite H. reflexivity.
        * rewrite !startswith_cons. intros H.
          destruct (96 =? c)%N; [|reflexivity].
          rewrite andb_true_l in H |- *. apply A. exact H.
        * change (occurs (py "```") (c :: remove_all (py "```") s'))
            with (startswith (c :: remove_all (py "```") s') (py "```")
                  || occurs (py "```") (remove_all (py "```") s')).
          rewrite D, orb_false_r.
          change (startswith (c :: remove_all (py "```") s') (py "```"))
            with (startswith (c :: remove_all (py "```") s')
                    (96%N :: [96%N; 96%N])).
          rewrite startswith_cons.
          destruct (96 =? c)%N; [|reflexivity].
          rewrite andb_true_l in E |- *. apply B. exact E. }
  apply (G (List.length s)). apply Nat.le_refl.
Qed.

Lemma startswith_app_l (p a b : str) :
  startswith a p = true -> startswith (a ++ b) p = true.
Proof.
  intros H. apply startswith_split in H as [r ->].
  rewrite <- app_assoc. apply startswith_app.
Qed.

Lemma occurs_app_l (pat a b : str) :
  occurs pat a = true -> occurs pat (a ++ b) = true.
Proof.
  induction a as [|x a IH]; simpl; intros H.
  - rewrite orb_false_r in H.
    apply startswith_split in H as [r H].
    destruct pat; [|discriminate H].
    destruct b; reflexivity.
  - apply orb_true_iff in H as [H|H].
    + change (x :: a ++ b) with ((x :: a) ++ b).
      rewrite (startswith_app_l _ _ b H). reflexivity.
    + rewrite (IH H). apply orb_true_r.
Qed.

Lemma occurs_app_r (pat a b : str) :
  occurs pat b = true -> occurs pat (a ++ b) = true.
Proof.
  intros H. induction a as [|x a IH]; simpl; [exact H|].
  rewrite IH. apply orb_true_r.
Qed.

(** [strip] brings in no occurrence of a pattern. *)
Lemma strip_keeps_free (pat s : str) :
  occurs pat s = false -> occurs pat (strip s) = false.
Proof.
  intros H. destruct (occurs pat (strip s)) eqn:E; [|reflexivity].
  rewrite <- H. symmetry.
  destruct (lstrip_suffix s) as [p Hp].
  destruct (rstrip_prefix (lstrip s)) as [q Hq].
  rewrite Hp, Hq. apply occurs_app_r, occurs_app_l. exact E.
Qed.

(** X14.  Whatever the model replies, the cleaned reply contains no
    [```] fence. *)
Theorem cleaned_has_no_fence (raw : str) :
  occurs (py "```") (Test3.cleaned raw) = false.
Proof.
  unfold Test3.cleaned. apply strip_keeps_free.
  apply (no_fence_after_removal
           (remove_all (py "```json") (strip raw))).
Qed.

Lemma cleaned_has_no_fence_witness :
  occurs (py "```") (Test3.cleaned (py "`````` ```json```` x ```")) = false.
Proof. exact (cleaned_has_no_fence (py "`````` ```json```` x ```")). Defined.

(** ** The grouping loop of [test2.py] and [test3.py] *)

Section GroupingFacts.

Import Grouping.

(** One turn of the loop never raises: it is [file_match]. *)
Lemma group_match_step (lim : limits) (grouped : groups)
    (m : Pinecone.Match) :
  group_match lim grouped m = ret (file_match lim grouped m).
Proof.
  unfold file_match, group_match, source_of, text_of.
  destruct (Pinecone.metadata m) as [[src txt]|]; simpl; [|reflexivity].
  set (source := match src with Some s => s | None => py "unknown_source" end).
  set (text := match txt with Some t => t | None => JStr [] end).
  destruct (truthy text) eqn:T; [|reflexivity].
  unfold item_of, loads_value, loads.
  destruct text as [ | | | |s| | ]; try reflexivity.
  destruct (json_loads lim s); reflexivity.
Qed.

(** X15.  One turn of the grouping loop never raises.  A match without
    metadata, without a text or with a falsy text (empty string, zero,
    empty list, ...) leaves the groups as they are.  A match whose text
    is a non-empty string that loads as JSON files the parsed value
    under its source.  Any other match with a truthy text (a string
    that does not load, or a value that is not a string) files
    [{"text": text}] under its source.  The source is
    [unknown_source] when the metadata or its [source] is missing. *)
Theorem group_match_contribution (lim : limits) (grouped : groups)
    (m : Pinecone.Match) :
  (truthy (text_of m) = false -> group_match lim grouped m = ret grouped)
  /\ (forall s v,
        text_of m = JStr s -> s <> [] -> json_loads lim s = Loaded v ->
        group_match lim grouped m = ret (append_to grouped (source_of m) v))
  /\ (truthy (text_of m) = true ->
      (forall s v, text_of m = JStr s -> json_loads lim s <> Loaded v) ->
      group_match lim grouped m
      = ret (append_to grouped (source_of m)
               (JDict [(py "text", text_of m)])))
  /\ (Pinecone.metadata m = None -> source_of m = py "unknown_source")
  /\ (forall md, Pinecone.metadata m = Some md ->
                 Pinecone.source md = None ->
                 source_of m = py "unknown_source").
Proof.
  rewrite group_match_step. unfold file_match.
  split; [|split; [|split; [|split]]].
  - intros ->. reflexivity.
  - intros s v Ht Hs Hl. rewrite Ht.
    destruct s as [|c s]; [contradiction|].
    change (truthy (JStr (c :: s))) with true. cbv iota.
    unfold item_of. rewrite Hl. reflexivity.
  - intros Ht Hn. rewrite Ht. unfold item_of.
    destruct (text_of m) as [ | | | |s| | ]; try reflexivity.
    destruct (json_loads lim s) as [v| | | |] eqn:E; try reflexivity.
    destruct (Hn s v eq_refl E).
  - unfold source_of. intros ->. reflexivity.
  - unfold source_of. intros md -> ->. reflexivity.
Qed.

Lemma group_match_contribution_witness :
  group_match Samples.cpython [] {| Pinecone.metadata := None |} = ret []
  /\ group_match Samples.cpython []
       {| Pinecone.metadata :=
            Some {| Pinecone.source := Some (py "a.json");
                    Pinecone.text :=
                      Some (JStr (py "{" ++ quoted "k" ++ py ": 1}")) |} |}
     = ret [(py "a.json", [JDict [(py "k", JInt 1)]])]
  /\ group_match Samples.cpython []
       {| Pinecone.metadata :=
            Some {| Pinecone.source := None;
                    Pinecone.text := Some (JInt 7) |} |}
     = ret [(py "unknown_source", [JDict [(py "text", JInt 7)]])].
Proof.
  split; [|split].
  - exact (proj1 (group_match_contribution Samples.cpython []
                    {| Pinecone.metadata := None |}) eq_refl).
  - exact (proj1 (proj2 (group_match_contribution Samples.cpython []
             {| Pinecone.metadata :=
                  Some {| Pinecone.source := Some (py "a.json");
                          Pinecone.text :=
                            Some (JStr (py "{" ++ quoted "k"
                                        ++ py ": 1}")) |} |}))
             (py "{" ++ quoted "k" ++ py ": 1}")
             (JDict [(py "k", JInt 1)])
             eq_refl ltac:(discriminate) eq_refl).
  - exact (proj1 (proj2 (proj2 (group_match_contribution Samples.cpython []
             {| Pinecone.metadata :=
                  Some {| Pinecone.source := None;
                          Pinecone.text := Some (JInt 7) |} |})))
             eq_refl ltac:(intros s v H; discriminate H)).
Defined.

Lemma group_matches_fold (lim : limits) (matches : list Pinecone.Match) :
  forall grouped,
    group_matches lim grouped matches
    = ret (fold_left (file_match lim) matches grouped).
Proof.
  induction matches as [|m rest IH]; intros grouped; simpl; [reflexivity|].
  rewrite group_match_step. unfold bind, ret.
  rewrite IH. reflexivity.
Qed.

Lemma append_to_keys (grouped : groups) (source : str) (x : json) :
  List.map fst (append_to grouped source x)
  = if existsb (fun k => str_eqb k source) (List.map fst grouped)
    then List.map fst grouped
    else List.map fst grouped ++ [source].
Proof.
  induction grouped as [|[k l] g IH]; simpl; [reflexivity|].
  destruct (str_eqb k source); simpl; [reflexivity|].
  rewrite IH.
  destruct (existsb (fun k0 => str_eqb k0 source) (List.map fst g));
    reflexivity.
Qed.

Lemma existsb_key (keys : list str) (source : str) :
  existsb (fun k => str_eqb k source) keys = true <-> In source keys.
Proof.
  rewrite existsb_exists. split.
  - intros (k & Hin & E). apply str_eqb_eq in E. subst; exact Hin.
  - intros Hin. exists source. split; [exact Hin | apply str_eqb_refl].
Qed.

Lemma append_to_nodup (grouped : groups) (source : str) (x : json) :
  NoDup (List.map fst grouped) ->
  NoDup (List.map fst (append_to grouped source x)).
Proof.
  intros H. rewrite append_to_keys.
  destruct (existsb (fun k => str_eqb k source) (List.map fst grouped)) eqn:E;
    [exact H|].
  apply NoDup_app; [exact H | repeat constructor; intros [] |].
  intros k Hk [<-|[]].
  apply (proj2 (existsb_key _ _)) in Hk. congruence.
Qed.

Lemma append_to_count (grouped : groups) (source : str) (x : json) :
  items_count (append_to grouped source x) = S (items_count grouped).
Proof.
  unfold items_count.
  induction grouped as [|[k l] g IH]; simpl; [reflexivity|].
  destruct (str_eqb k source); simpl.
  - rewrite length_app. simpl. lia.
  - rewrite IH. lia.
Qed.

Lemma append_to_nonempty (grouped : groups) (source : str) (x : json) :
  Forall (fun kl => snd kl <> []) grouped ->
  Forall (fun kl => snd kl <> []) (append_to grouped source x).
Proof.
  induction grouped as [|[k l] g IH]; simpl; intros H.
  - constructor; [discriminate | constructor].
  - inversion H; subst.
    destruct (str_eqb k source); constructor; simpl; auto.
    destruct l; discriminate.
Qed.

Lemma append_to_key_in (grouped : groups) (source k : str) (x : json) :
  In k (List.map fst (append_to grouped source x))
  <-> k = source \/ In k (List.map fst grouped).
Proof.
  rewrite append_to_keys.
  destruct (existsb (fun k0 => str_eqb k0 source) (List.map fst grouped)) eqn:E.
  - apply existsb_key in E. split; [auto | intros [->|H]; assumption].
  - rewrite in_app_iff. simpl. intuition.
Qed.

Lemma fold_file_match_invariants (lim : limits)
    (matches : list Pinecone.Match) :
  forall grouped,
    NoDup (List.map fst grouped) ->
    Forall (fun kl => snd kl <> []) grouped ->
    let result := fold_left (file_match lim) matches grouped in
    NoDup (List.map fst result)
    /\ Forall (fun kl => snd kl <> []) result
    /\ items_count result
       = items_count grouped
         + List.length (filter (fun m => truthy (text_of m)) matches)
    /\ (forall k,
          In k (List.map fst result)
          <-> In k (List.map fst grouped)
              \/ exists m, In m matches
                           /\ truthy (text_of m) = true
                           /\ source_of m = k).
Proof.
  induction matches as [|m rest IH]; intros grouped Hn Hf; simpl.
  - repeat split; auto.
    + intros [H|(m & [] & _)]; exact H.
  - assert (Hn' : NoDup (List.map fst (file_match lim grouped m)))
      by (unfold file_match; destruct (truthy (text_of m));
          [apply append_to_nodup|]; exact Hn).
    assert (Hf' : Forall (fun kl => snd kl <> []) (file_match lim grouped m))
      by (unfold file_match; destruct (truthy (text_of m));
          [apply append_to_nonempty|]; exact Hf).
    destruct (IH (file_match lim grouped m) Hn' Hf') as (R1 & R2 & R3 & R4).
    split; [exact R1|]. split; [exact R2|]. split.
    + rewrite R3. unfold file_match.
      destruct (truthy (text_of m)); simpl;
        [rewrite append_to_count|]; lia.
    + intros k. rewrite R4. unfold file_match.
      destruct (truthy (text_of m)) eqn:T.
      * rewrite append_to_key_in. split.
        -- intros [[->|H]|(m' & Hin & Ht & Hs)].
           ++ right. exists m. auto.
           ++ left; exact H.
           ++ right. exists m'. auto.
        -- intros [H|(m' & [<-|Hin] & Ht & Hs)].
           ++ left; right; exact H.
           ++ left; left; symmetry; exact Hs.
           ++ right. exists m'. auto.
      * split.
        -- intros [H|(m' & Hin & Ht & Hs)]; [left; exact H|].
           right. exists m'. auto.
        -- intros [H|(m' & [<-|Hin] & Ht & Hs)]; [left; exact H | congruence |].
           right. exists m'. auto.
Qed.

(** X16.  The grouping loop returns for every list of matches.  In its
    result the sources are distinct, no source has an empty list, the
    items are as many as the matches with a truthy text, and the
    sources are exactly the sources of those matches. *)
Theorem grouping_invariants (lim : limits) (matches : list Pinecone.Match) :
  exists grouped,
    group_matches lim [] matches = ret grouped
    /\ NoDup (List.map fst grouped)
    /\ Forall (fun kl => snd kl <> []) grouped
    /\ items_count grouped
       = List.length (filter (fun m => truthy (text_of m)) matches)
    /\ (forall k,
          In k (List.map fst grouped)
          <-> exists m, In m matches
                        /\ truthy (text_of m) = true
                        /\ source_of m = k).
Proof.
  exists (fold_left (file_match lim) matches []).
  split; [apply group_matches_fold|].
  destruct (fold_file_match_invariants lim matches [] (NoDup_nil _)
              (Forall_nil _)) as (R1 & R2 & R3 & R4).
  split; [exact R1|]. split; [exact R2|]. split; [exact R3|].
  intros k. rewrite R4. simpl. intuition.
Qed.

Lemma grouping_invariants_witness :
  exists grouped,
    group_matches Samples.cpython [] Samples.mixed_matches = ret grouped
    /\ NoDup (List.map fst grouped)
    /\ Forall (fun kl => snd kl <> []) grouped
    /\ items_count grouped
       = List.length (filter (fun m => truthy (text_of m))
                        Samples.mixed_matches)
    /\ (forall k,
          In k (List.map fst grouped)
          <-> exists m, In m Samples.mixed_matches
                        /\ truthy (text_of m) = true
                        /\ source_of m = k).
Proof. exact (grouping_invariants Samples.cpython Samples.mixed_matches). Defined.

(** The sample, computed: two items under [a.json], none for the empty
    text, one under [unknown_source]. *)
Example grouping_run :
  group_matches Samples.cpython [] Samples.mixed_matches
  = ret [ (py "a.json",
           [ JDict [(py "k", JInt 1)];
             JDict [(py "text", JStr (py "plain"))] ]);
          (py "unknown_source", [ JDict [(py "text", JInt 7)] ]) ].
Proof. reflexivity. Qed.

End GroupingFacts.

(** ** The document loader, file by file *)

Section LoaderFacts.

Import Helper.

(** X17.  An entry of the folder whose name does not end in [.json],
    or that cannot be opened and read, or whose content loads as
    something other than a list or an object, contributes no Record
    and does not disturb the other files: the loader returns what it
    returns for the folder without that entry. *)
Theorem loader_skips_entry
    (lim : limits) (before after : list file) (f : file) :
  endswith (file_name f) (py ".json") = false
  \/ file_text f = None
  \/ (exists content v,
        file_text f = Some content
        /\ json_loads lim content = Loaded v
        /\ (forall l, v <> JList l) /\ (forall d, v <> JDict d)) ->
  exists documents,
    load_json_files lim (before ++ after) = ret documents
    /\ load_json_files lim (before ++ f :: after) = ret documents.
Proof.
  intros H.
  assert (E : records_of_file lim f = []).
  { unfold records_of_file.
    destruct H as [-> | [-> | (content & v & -> & -> & Hl & Hd)]].
    - reflexivity.
    - destruct (endswith (file_name f) (py ".json")); reflexivity.
    - destruct (endswith (file_name f) (py ".json")); [|reflexivity].
      destruct v as [ | | | | |l|d]; try reflexivity.
      + destruct (Hl l eq_refl).
      + destruct (Hd d eq_refl). }
  exists (flat_map (records_of_file lim) (before ++ after)).
  rewrite !load_json_files_flat. split; [reflexivity|].
  rewrite !flat_map_app. simpl. rewrite E. reflexivity.
Qed.

Lemma loader_skips_entry_witness :
  (exists documents,
     load_json_files Samples.cpython ([Samples.ab_file] ++ []) = ret documents
     /\ load_json_files Samples.cpython
          ([Samples.ab_file] ++ Samples.notes_file :: [])
        = ret documents)
  /\ (exists documents,
        load_json_files Samples.cpython ([] ++ [Samples.ab_file]) = ret documents
        /\ load_json_files Samples.cpython
             ([] ++ Samples.locked_file :: [Samples.ab_file])
           = ret documents)
  /\ (exists documents,
        load_json_files Samples.cpython ([] ++ []) = ret documents
        /\ load_json_files Samples.cpython ([] ++ Samples.scalar_file :: [])
           = ret documents).
Proof.
  split; [|split].
  - exact (loader_skips_entry Samples.cpython [Samples.ab_file] [] Samples.notes_file
             (or_introl eq_refl)).
  - exact (loader_skips_entry Samples.cpython [] [Samples.ab_file] Samples.locked_file
             (or_intror (or_introl eq_refl))).
  - apply (loader_skips_entry Samples.cpython [] [] Samples.scalar_file).
    right; right. exists (py "7"), (JInt 7).
    repeat split; intros; discriminate.
Defined.

(** X18.  Loading is additive over the folder: the Records of a folder
    listed as one part after another are the Records of the first part
    followed by those of the second, in that order. *)
Theorem loader_concatenates (lim : limits) (first second : list file) :
  exists documents_first documents_second,
    load_json_files lim first = ret documents_first
    /\ load_json_files lim second = ret documents_second
    /\ load_json_files lim (first ++ second)
       = ret (documents_first ++ documents_second).
Proof.
  exists (flat_map (records_of_file lim) first),
         (flat_map (records_of_file lim) second).
  rewrite !load_json_files_flat, flat_map_app. repeat split.
Qed.

Lemma loader_concatenates_witness :
  exists documents_first documents_second,
    load_json_files Samples.cpython [Samples.ab_file; Samples.bad_file] = ret documents_first
    /\ load_json_files Samples.cpython [Samples.list_file] = ret documents_second
    /\ load_json_files Samples.cpython
         ([Samples.ab_file; Samples.bad_file] ++ [Samples.list_file])
       = ret (documents_first ++ documents_second).
Proof.
  exact (loader_concatenates Samples.cpython [Samples.ab_file; Samples.bad_file]
           [Samples.list_file]).
Defined.

Lemma file_documents_source (name : str) (json_data : json) (doc : Document) :
  In doc (file_documents name json_data) ->
  dict_get (metadata doc) (py "source") = Some (JStr name).
Proof.
  assert (K : forall (mk : str -> str -> Document) (d : pydict),
            (forall key value,
                dict_get (metadata (mk key value)) (py "source")
                = Some (JStr name)) ->
            In doc (flat_map
                      (fun kv =>
                         match snd kv with
                         | JStr value =>
                             if nonempty (strip value)
                             then [mk (fst kv) value] else []
                         | _ => []
                         end) d) ->
            dict_get (metadata doc) (py "source") = Some (JStr name)).
  { intros mk d Hmk H. apply in_flat_map in H as ([key v] & _ & H).
    simpl in H. destruct v as [ | | | |text| | ]; try (destruct H).
    destruct (nonempty (strip text)); [|destruct H].
    destruct H as [<-|[]]. apply Hmk. }
  destruct json_data as [ | | | | |records|object]; simpl; try (intros []).
  - intros H. apply in_flat_map in H as ([i record] & _ & H). simpl in H.
    destruct record as [ | | | |text|items|fields]; try (destruct H).
    + destruct (nonempty (strip text)); [|destruct H].
      destruct H as [<-|[]]. reflexivity.
    + apply (K (fun key value =>
                  {| page_content := strip value;
                     metadata := [ (py "source", JStr name);
                                   (py "key", JStr key);
                                   (py "index", JInt i) ] |}) fields);
        [reflexivity | exact H].
  - apply (K (fun key value =>
                {| page_content := strip value;
                   metadata := [ (py "source", JStr name);
                                 (py "key", JStr key) ] |}) object).
    reflexivity.
Qed.

(** X19.  Every Record the loader returns names its file: its
    metadata's [source] is the name of an entry of the folder, and
    that name ends in [.json]. *)
Theorem records_name_their_file (lim : limits) (folder : list file) :
  exists documents,
    load_json_files lim folder = ret documents
    /\ Forall
         (fun doc =>
            exists f,
              In f folder
              /\ endswith (file_name f) (py ".json") = true
              /\ dict_get (metadata doc) (py "source")
                 = Some (JStr (file_name f)))
         documents.
Proof.
  exists (flat_map (records_of_file lim) folder).
  split; [apply load_json_files_flat|].
  apply Forall_forall. intros doc Hin.
  apply in_flat_map in Hin as (f & Hf & Hin).
  unfold records_of_file in Hin.
  destruct (endswith (file_name f) (py ".json")) eqn:E; [|destruct Hin].
  destruct (file_text f) as [content|]; [|destruct Hin].
  destruct (json_loads lim content) as [json_data| | | |]; try (destruct Hin).
  exists f. split; [exact Hf|]. split; [exact E|].
  apply (file_documents_source _ _ _ Hin).
Qed.

Lemma records_name_their_file_witness :
  exists documents,
    load_json_files Samples.cpython [Samples.notes_file; Samples.ab_file; Samples.list_file]
    = ret documents
    /\ Forall
         (fun doc =>
            exists f,
              In f [Samples.notes_file; Samples.ab_file; Samples.list_file]
              /\ endswith (file_name f) (py ".json") = true
              /\ dict_get (metadata doc) (py "source")
                 = Some (JStr (file_name f)))
         documents.
Proof.
  exact (records_name_their_file Samples.cpython
           [Samples.notes_file; Samples.ab_file; Samples.list_file]).
Defined.

Lemma In_enumerate_nth {A : Type} (l : list A) :
  forall (k i : Z) (x : A),
    In (i, x) (enumerate_from k l) ->
    exists n, i = (k + Z.of_nat n)%Z /\ nth_error l n = Some x.
Proof.
  induction l as [|y l IH]; simpl; intros k i x H; [destruct H|].
  destruct H as [H|H].
  - inversion H; subst. exists 0. split; [lia | reflexivity].
  - destruct (IH _ _ _ H) as (n & -> & Hn).
    exists (S n). split; [lia | exact Hn].
Qed.

(** X20.  A [.json] file whose content loads as a list yields Records
    that carry the position of their item: the metadata's [index] is
    the position, within the list, of the item the text comes from.
    A string item gives a Record without a [key]; a string value of an
    object item gives a Record tagged with its key. *)
Theorem list_file_records
    (lim : limits) (name content : str) (records : list json) :
  endswith name (py ".json") = true ->
  json_loads lim content = Loaded (JList records) ->
  exists documents,
    load_json_files lim [ {| file_name := name; file_text := Some content |} ]
    = ret documents
    /\ Forall
         (fun doc =>
            exists (i : nat) (record : json) (value : str),
              dict_get (metadata doc) (py "index")
              = Some (JInt (Z.of_nat i))
              /\ nth_error records i = Some record
              /\ page_content doc = strip value
              /\ (record = JStr value
                  /\ dict_get (metadata doc) (py "key") = None
                  \/ exists d key,
                       record = JDict d
                       /\ In (key, JStr value) d
                       /\ dict_get (metadata doc) (py "key")
                          = Some (JStr key)))
         documents.
Proof.
  intros Hn Hl.
  exists (file_documents name (JList records)). split.
  - rewrite load_json_files_flat. simpl.
    unfold records_of_file. simpl. rewrite Hn, Hl.
    rewrite app_nil_r. reflexivity.
  - apply Forall_forall. intros doc H. simpl in H.
    apply in_flat_map in H as ([i record] & Hin & H).
    apply In_enumerate_nth in Hin as (n & -> & Hnth). simpl in H.
    destruct record as [ | | | |text|items|fields]; try (destruct H).
    + destruct (nonempty (strip text)); [|destruct H].
      destruct H as [<-|[]].
      exists n, (JStr text), text. repeat split; try assumption.
      left. split; reflexivity.
    + unfold record_documents in H.
      apply in_flat_map in H as ([key v] & Hk & H). simpl in H.
      destruct v as [ | | | |text| | ]; try (destruct H).
      destruct (nonempty (strip text)); [|destruct H].
      destruct H as [<-|[]].
      exists n, (JDict fields), text. repeat split; try assumption.
      right. exists fields, key. repeat split. exact Hk.
Qed.

Lemma list_file_records_witness :
  exists documents,
    load_json_files Samples.cpython [Samples.list_file] = ret documents
    /\ Forall
         (fun doc =>
            exists (i : nat) (record : json) (value : str),
              dict_get (metadata doc) (py "index")
              = Some (JInt (Z.of_nat i))
              /\ nth_error
                   [ JDict [(py "company_type", JStr (py " Private "))];
                     JStr (py "  "); JStr (py "Ltd"); JInt 7 ] i
                 = Some record
              /\ page_content doc = strip value
              /\ (record = JStr value
                  /\ dict_get (metadata doc) (py "key") = None
                  \/ exists d key,
                       record = JDict d
                       /\ In (key, JStr value) d
                       /\ dict_get (metadata doc) (py "key")
                          = Some (JStr key)))
         documents.
Proof.
  exact (list_file_records Samples.cpython (py "company_type.json")
           (py "[{" ++ quoted "company_type" ++ py ": " ++ quoted " Private "
            ++ py "}, " ++ quoted "  " ++ py ", " ++ quoted "Ltd"
            ++ py ", 7]")
           [ JDict [(py "company_type", JStr (py " Private "))];
             JStr (py "  "); JStr (py "Ltd"); JInt 7 ]
           eq_refl eq_refl).
Defined.

End LoaderFacts.
